(** * fgo-bot: the battle automation engine of [gamebots/bot.py]

    A shallow embedding of class [BattleBot]: the button-layout arithmetic,
    the stage-handler registry, the action invokers ([use_skill],
    [use_master_skill], [attack]), the battle state machine and the runner.

    The two collaborators of the class, the device channel ([Device]) and the
    template matcher ([TM]), are outside [bot.py].  They are modelled as an
    oracle carried by the world: the sequence of frames the device will
    capture, the answers of the matcher on a frame, and the result of each
    tap.  Everything the bot does to the outside (taps, swipes, sleeps, log
    records) is appended to a trace. *)

From stdpp Require Import base numbers list strings pretty gmap.
From Stdlib Require Import QArith.
Local Open Scope string_scope.
Local Open Scope list_scope.
Local Open Scope Z_scope.

(** ** Observable events *)

Inductive Level := DEBUG | INFO | WARNING | ERROR.

(** An argument of a [str.format] call in a log record. *)
Inductive Arg :=
  | AInt (z : Z)
  | AStr (s : string)
  | ARat (q : Q)
  | ANone
  | AStrs (l : list string).

Inductive Event :=
  | Tap (x y w h : Z)                       (* device.tap_rand(x, y, w, h) *)
  | Swipe (x1 y1 x2 y2 : Z)                 (* device.swipe((x1, y1), (x2, y2)) *)
  | Sleep (sec : Z)                         (* time.sleep(sec) *)
  | Log (lvl : Level) (fmt : string) (args : list Arg).

(** ** The template matcher's view of one captured frame *)

Record Frame := {
  f_exists : string -> option Q -> bool;    (* tm.exists(im, threshold=...) *)
  f_find : string -> option Q -> Z * Z;     (* tm.find(im, threshold=...) *)
  f_probability : string -> Q               (* tm.probability(im) *)
}.

(** ** The world: device, matcher cache, clock, random source and trace *)

Record World := {
  feed : nat -> Frame;      (* the k-th frame device.capture will deliver *)
  captured : nat;           (* number of frames captured so far *)
  screen : Frame;           (* the frame cached by tm.update_screen *)
  tm_size : string -> Z * Z;(* tm.getsize(im) *)
  tap_ok : nat -> bool;     (* result of tap_rand, by position in the trace *)
  rng : nat -> Z;           (* the random source behind randint *)
  drawn : nat;              (* number of random draws so far *)
  now : Z;                  (* time(), in seconds *)
  trace : list Event
}.

Definition set_trace (t : list Event) (w : World) : World :=
  {| feed := feed w; captured := captured w; screen := screen w;
     tm_size := tm_size w; tap_ok := tap_ok w; rng := rng w;
     drawn := drawn w; now := now w; trace := t |}.

Definition emit (e : Event) (w : World) : World :=
  set_trace (trace w ++ [e]) w.

Definition refresh (w : World) : World :=
  {| feed := feed w; captured := S (captured w);
     screen := feed w (captured w);
     tm_size := tm_size w; tap_ok := tap_ok w; rng := rng w;
     drawn := drawn w; now := now w; trace := trace w |}.

Definition advance (sec : Z) (w : World) : World :=
  {| feed := feed w; captured := captured w; screen := screen w;
     tm_size := tm_size w; tap_ok := tap_ok w; rng := rng w;
     drawn := drawn w; now := now w + sec; trace := trace w |}.

Definition draw (w : World) : World :=
  {| feed := feed w; captured := captured w; screen := screen w;
     tm_size := tm_size w; tap_ok := tap_ok w; rng := rng w;
     drawn := S (drawn w); now := now w; trace := trace w |}.

(** ** Exceptions, results and the state-and-error monad *)

Inductive Exn :=
  | AssertionError (msg : string)
  | KeyError (key : string)
  | KeyErrorInt (key : Z)
  | TypeError
  | ZeroDivisionError.

Inductive Result (A : Type) :=
  | Ok (a : A)
  | Raise (e : Exn)
  | OutOfFuel.
Arguments Ok {A} a.
Arguments Raise {A} e.
Arguments OutOfFuel {A}.

Definition M (A : Type) : Type := World -> Result A * World.

Definition ret {A} (a : A) : M A := fun w => (Ok a, w).

Definition bind {A B} (m : M A) (k : A -> M B) : M B :=
  fun w =>
    match m w with
    | (Ok a, w') => k a w'
    | (Raise e, w') => (Raise e, w')
    | (OutOfFuel, w') => (OutOfFuel, w')
    end.

Definition raise {A} (e : Exn) : M A := fun w => (Raise e, w).
Definition out_of_fuel {A} : M A := fun w => (OutOfFuel, w).

Declare Scope bot_scope.
Delimit Scope bot_scope with bot.
Notation "x <- m ;; k" := (bind m (fun x => k))
  (at level 100, m at next level, k at level 200, right associativity) : bot_scope.
Notation "m ;; k" := (bind m (fun _ => k))
  (at level 100, k at level 200, right associativity) : bot_scope.
Local Open Scope bot_scope.

(** [assert cond, msg] *)
Definition assert (cond : bool) (msg : string) : M unit :=
  if cond then ret tt else raise (AssertionError msg).

(** [for x in l: body(x)] *)
Fixpoint for_each {A} (l : list A) (body : A -> M unit) : M unit :=
  match l with
  | [] => ret tt
  | x :: r => body x ;; for_each r body
  end.

(** ** Primitive operations of the collaborators *)

Definition logger (lvl : Level) (fmt : string) (args : list Arg) : M unit :=
  fun w => (Ok tt, emit (Log lvl fmt args) w).

Definition sleep (sec : Z) : M unit :=
  fun w => (Ok tt, advance sec (emit (Sleep sec) w)).

Definition time : M Z := fun w => (Ok (now w), w).

(** [randint(lo, hi)]: a draw from the random source, inside [lo, hi]. *)
Definition randint (lo hi : Z) : M Z :=
  fun w => (Ok (lo + rng w (drawn w) `mod` (hi - lo + 1)), draw w).

Definition tm_update_screen : M unit := fun w => (Ok tt, refresh w).

Definition tm_exists (im : string) (thr : option Q) : M bool :=
  fun w => (Ok (f_exists (screen w) im thr), w).

Definition tm_find (im : string) (thr : option Q) : M (Z * Z) :=
  fun w => (Ok (f_find (screen w) im thr), w).

Definition tm_getsize (im : string) : M (Z * Z) :=
  fun w => (Ok (tm_size w im), w).

Definition device_tap_rand (x y w h : Z) : M bool :=
  fun wd => (Ok (tap_ok wd (length (trace wd))), emit (Tap x y w h) wd).

Definition device_swipe (p1 p2 : Z * Z) : M unit :=
  fun w => (Ok tt, emit (Swipe p1.1 p1.2 p2.1 p2.2) w).

(** ** The button layout ([config/buttons.json]) *)

Inductive BtnVal :=
  | Rect (x y w h : Z)                       (* {"x":..,"y":..,"w":..,"h":..} *)
  | Num (d : Z)                              (* a repeat distance *)
  | Tracks (t : gmap string (Z * Z * Z * Z)). (* the swipe table *)

(** ** Stage handlers and the bot object *)

Record Handler := {
  h_name : string;          (* f.__name__ *)
  h_call : M unit           (* f() *)
}.

Record BattleBot := {
  stage_handlers : gmap Z Handler;
  stage_count : Z;
  friend_count : nat;
  ap : option (list string);
  threshold : Q;
  buttons : gmap string BtnVal
}.

Definition set_stage_handlers (hs : gmap Z Handler) (self : BattleBot) : BattleBot :=
  {| stage_handlers := hs; stage_count := stage_count self;
     friend_count := friend_count self; ap := ap self;
     threshold := threshold self; buttons := buttons self |}.

Definition INTERVAL_SHORT : Z := 1.
Definition INTERVAL_MID : Z := 10.
Definition INTERVAL_LONG : Z := 25.

(** [self.buttons[key]] *)
Definition buttons_get (self : BattleBot) (key : string) : M BtnVal :=
  match buttons self !! key with
  | Some v => ret v
  | None => raise (KeyError key)
  end.

(** [self.buttons[key]] used as a number *)
Definition distance (self : BattleBot) (key : string) : M Z :=
  v <- buttons_get self key ;;
  match v with
  | Num d => ret d
  | _ => raise TypeError
  end.

(** [__button]: the coordinates and size of a named button. *)
Definition button (self : BattleBot) (btn : string) : M (Z * Z * Z * Z) :=
  v <- buttons_get self btn ;;
  match v with
  | Rect x y w h => ret (x, y, w, h)
  | Num _ => raise TypeError
  | Tracks _ => raise (KeyError "x")
  end.

(** [__swipe]: swipe along a named track, each coordinate jittered. *)
Definition swipe (self : BattleBot) (track : string) : M unit :=
  v <- buttons_get self "swipe" ;;
  match v with
  | Tracks t =>
      match t !! track with
      | Some (x1, y1, x2, y2) =>
          d1 <- randint (-5) 5 ;;
          d2 <- randint (-5) 5 ;;
          d3 <- randint (-5) 5 ;;
          d4 <- randint (-5) 5 ;;
          device_swipe (x1 + d1, y1 + d2) (x2 + d3, y2 + d4)
      | None => raise (KeyError track)
      end
  | Rect _ _ _ _ => raise (KeyError track)
  | Num _ => raise TypeError
  end.

(** [__find_and_tap] *)
Definition find_and_tap (im : string) (thr : option Q) : M bool :=
  xy <- tm_find im thr ;;
  let '(x, y) := xy in
  if decide ((x, y) = (-1, -1)) then
    logger WARNING "Failed to find image {} on screen." [AStr im] ;;
    ret false
  else
    wh <- tm_getsize im ;;
    let '(w, h) := wh in
    device_tap_rand x y w h.

(** [__exists] *)
Definition exists_ (im : string) (thr : option Q) : M bool := tm_exists im thr.

(** [__wait] *)
Definition wait (sec : Z) : M unit :=
  logger DEBUG "Sleep {} seconds." [AInt sec] ;;
  sleep sec ;;
  tm_update_screen.

(** The [while] loop of [__wait_until]. *)
Fixpoint wait_until_loop (fuel : nat) (im : string) : M unit :=
  b <- exists_ im None ;;
  if negb b then
    match fuel with
    | O => out_of_fuel
    | S fuel' =>
        wait INTERVAL_SHORT ;;
        r <- exists_ "reconnect" None ;;
        (if r then find_and_tap "reconnect" None ;; ret tt else ret tt) ;;
        wait_until_loop fuel' im
    end
  else ret tt.

(** [__wait_until] *)
Definition wait_until (fuel : nat) (im : string) : M unit :=
  logger DEBUG "Wait until image '{}' appears." [AStr im] ;;
  tm_update_screen ;;
  wait_until_loop fuel im.

(** [if cond: body] and a call whose result is dropped. *)
Definition when_ (cond : bool) (body : M unit) : M unit :=
  if cond then body else ret tt.

Definition void {A} (m : M A) : M unit := _ <- m ;; ret tt.

(** Truth value of [self.stage_handlers.get(stage)]: [None] is false, a
    function object is true. *)
Definition truthy (o : option Handler) : bool :=
  match o with
  | None => false
  | Some _ => true
  end.

(** [__add_stage_handler]; the updated bot object is returned. *)
Definition add_stage_handler (self : BattleBot) (stage : Z) (f : Handler)
  : M BattleBot :=
  assert (negb (truthy (stage_handlers self !! stage)))
         "Cannot register multiple function to a single stage." ;;
  logger DEBUG "Function {} registered to stage {}" [AStr (h_name f); AInt stage] ;;
  ret (set_stage_handlers (<[stage := f]> (stage_handlers self)) self).

(** [at_stage(stage)(f)]: the decorator applied to [f]; it returns [f]. *)
Definition at_stage (self : BattleBot) (stage : Z) (f : Handler)
  : M (BattleBot * Handler) :=
  self' <- add_stage_handler self stage f ;;
  ret (self', f).

(** ** Entering a battle *)

Definition friend_image (fid : nat) : string := "f_" +:+ pretty fid.

(** [for fid in range(self.friend_count)] of [__find_friend], with its
    early [return im]. *)
Fixpoint scan_friends (self : BattleBot) (fids : list nat) : M (option string) :=
  match fids with
  | [] => ret None
  | fid :: rest =>
      let im := friend_image fid in
      b <- exists_ im (Some (threshold self)) ;;
      if b then ret (Some im) else scan_friends self rest
  end.

(** [for _ in range(6)] of [__find_friend]. *)
Fixpoint poll_friends (self : BattleBot) (polls : nat) : M string :=
  match polls with
  | O => ret ""
  | S polls' =>
      wait INTERVAL_SHORT ;;
      r <- scan_friends self (seq 0 (friend_count self)) ;;
      match r with
      | Some im => ret im
      | None => swipe self "friend" ;; poll_friends self polls'
      end
  end.

(** [__find_friend] *)
Definition find_friend (fuel : nat) (self : BattleBot) : M string :=
  wait_until fuel "refresh_friends" ;;
  poll_friends self 6.

(** [while not self.__find_and_tap('quest', ...)] of [__enter_battle]. *)
Fixpoint tap_quest_loop (fuel : nat) (self : BattleBot) : M unit :=
  b <- find_and_tap "quest" (Some (threshold self)) ;;
  if negb b then
    match fuel with
    | O => out_of_fuel
    | S fuel' =>
        swipe self "quest" ;;
        wait INTERVAL_SHORT ;;
        tap_quest_loop fuel' self
    end
  else ret tt.

(** [for ap_item in self.ap] with its [break]; the result is [ok]. *)
Fixpoint use_ap_items (fuel : nat) (items : list string) : M bool :=
  match items with
  | [] => ret false
  | ap_item :: rest =>
      when_ (bool_decide (ap_item = "apple_bronze"))
            (device_swipe (640, 400) (640, 250) ;;
             wait INTERVAL_SHORT) ;;
      b <- find_and_tap ap_item None ;;
      if b then
        wait INTERVAL_SHORT ;;
        d <- find_and_tap "decide" None ;;
        if d then
          logger INFO (ap_item +:+ " used") [] ;;
          wait_until fuel "refresh_friends" ;;
          ret true
        else use_ap_items fuel rest
      else use_ap_items fuel rest
  end.

(** Truth value of a string: only the empty string is false. *)
Definition str_truthy (s : string) : bool :=
  match s with
  | EmptyString => false
  | String _ _ => true
  end.

(** [while not friend] of [__enter_battle] and [__reenter_battle]. *)
Fixpoint refresh_friends_loop (fuel : nat) (self : BattleBot) (friend : string)
  : M string :=
  if negb (str_truthy friend) then
    match fuel with
    | O => out_of_fuel
    | S fuel' =>
        void (find_and_tap "refresh_friends" None) ;;
        wait INTERVAL_SHORT ;;
        void (find_and_tap "yes" None) ;;
        wait INTERVAL_SHORT ;;
        friend' <- find_friend fuel self ;;
        refresh_friends_loop fuel' self friend'
    end
  else ret friend.

(** Truth value of [self.ap]: [None] and the empty list are false. *)
Definition ap_truthy (self : BattleBot) : bool :=
  match ap self with
  | None | Some [] => false
  | Some (_ :: _) => true
  end.

(** The items iterated by [for ap_item in self.ap]. *)
Definition ap_items (self : BattleBot) : list string := default [] (ap self).

(** [__enter_battle] *)
Definition enter_battle (fuel : nat) (self : BattleBot) : M bool :=
  let look_for_friend : M bool :=
    friend <- find_friend fuel self ;;
    friend <- refresh_friends_loop fuel self friend ;;
    void (find_and_tap friend (Some (threshold self))) ;;
    wait_until fuel "start_quest" ;;
    void (find_and_tap "start_quest" None) ;;
    wait INTERVAL_MID ;;
    ret true in
  logger INFO "Trying to enter the battle" [] ;;
  wait_until fuel "menu" ;;
  tap_quest_loop fuel self ;;
  wait INTERVAL_SHORT ;;
  regen <- exists_ "ap_regen" None ;;
  if regen then
    if negb (ap_truthy self) then ret false
    else
      wait INTERVAL_SHORT ;;
      ok <- use_ap_items fuel (ap_items self) ;;
      if negb ok then ret false else look_for_friend
  else look_for_friend.

(** [while not self.__find_and_tap('cont')] of [__reenter_battle]. *)
Fixpoint tap_cont_loop (fuel : nat) : M unit :=
  b <- find_and_tap "cont" None ;;
  if negb b then
    match fuel with
    | O => out_of_fuel
    | S fuel' => wait INTERVAL_SHORT ;; tap_cont_loop fuel'
    end
  else ret tt.

(** [__reenter_battle] *)
Definition reenter_battle (fuel : nat) (self : BattleBot) : M bool :=
  let look_for_friend : M bool :=
    friend <- find_friend fuel self ;;
    friend <- refresh_friends_loop fuel self friend ;;
    void (find_and_tap friend (Some (threshold self))) ;;
    wait INTERVAL_MID ;;
    ret true in
  logger INFO "Trying to re-enter the battle" [] ;;
  tap_cont_loop fuel ;;
  wait INTERVAL_SHORT ;;
  regen <- exists_ "ap_regen" None ;;
  if regen then
    logger DEBUG "Insufficient AP" [] ;;
    if negb (ap_truthy self) then ret false
    else
      wait INTERVAL_SHORT ;;
      ok <- use_ap_items fuel (ap_items self) ;;
      if negb ok then ret false else look_for_friend
  else look_for_friend.

(** ** Playing and ending a battle *)

(** [self.stage_handlers[stage]] *)
Definition handler_at (self : BattleBot) (stage : Z) : M Handler :=
  match stage_handlers self !! stage with
  | Some f => ret f
  | None => raise (KeyErrorInt stage)
  end.

(** The [while stage < self.stage_count] loop of [play_battle].  [budget]
    bounds the number of iterations. *)
Fixpoint play_loop (budget fuel : nat) (self : BattleBot) (stage : Z) : M Z :=
  if stage <? stage_count self then
    match budget with
    | O => out_of_fuel
    | S budget' =>
        let stage := stage + 1 in
        wait_until fuel "attack" ;;
        f <- handler_at self stage ;;
        h_call f ;;
        wait INTERVAL_LONG ;;
        play_loop budget' fuel self stage
    end
  else ret stage.

(** [play_battle]; the loop runs at most [stage_count] times. *)
Definition play_battle (fuel : nat) (self : BattleBot) : M Z :=
  logger INFO "Handling the battle" [] ;;
  play_loop (Z.to_nat (stage_count self)) fuel self 0.

(** [while not self.__exists('next_step')] of [end_battle]. *)
Fixpoint next_step_loop (fuel : nat) : M unit :=
  b <- exists_ "next_step" None ;;
  if negb b then
    match fuel with
    | O => out_of_fuel
    | S fuel' =>
        void (device_tap_rand 640 360 50 50) ;;
        wait INTERVAL_SHORT ;;
        r <- exists_ "reconnect" None ;;
        when_ r (void (find_and_tap "reconnect" None)) ;;
        next_step_loop fuel'
    end
  else ret tt.

(** [end_battle] *)
Definition end_battle (fuel : nat) : M unit :=
  wait INTERVAL_SHORT ;;
  logger INFO "Finishing the battle." [] ;;
  next_step_loop fuel ;;
  void (find_and_tap "next_step" None) ;;
  wait (INTERVAL_SHORT * 2) ;;
  b <- exists_ "next_step" None ;;
  when_ b (void (find_and_tap "next_step" None) ;;
           wait INTERVAL_SHORT) ;;
  wait (INTERVAL_SHORT * 2) ;;
  n <- exists_ "not_apply" None ;;
  when_ n (void (find_and_tap "not_apply" None)) ;;
  wait INTERVAL_SHORT.

(** ** Action invokers *)

(** [use_skill] *)
Definition use_skill (fuel : nat) (self : BattleBot)
    (servant skill : Z) (obj : option Z) : M unit :=
  wait_until fuel "attack" ;;
  r <- button self "skill" ;;
  let '(x, y, w, h) := r in
  d <- distance self "servant_distance" ;;
  let x := x + d * (servant - 1) in
  d <- distance self "skill_distance" ;;
  let x := x + d * (skill - 1) in
  void (device_tap_rand x y w h) ;;
  logger DEBUG "Used skill ({}, {})" [AInt servant; AInt skill] ;;
  wait INTERVAL_SHORT ;;
  c <- exists_ "choose_object" None ;;
  when_ c
    match obj with
    | None => logger ERROR "Must choose a skill object." []
    | Some obj =>
        r <- button self "choose_object" ;;
        let '(x, y, w, h) := r in
        d <- distance self "choose_object_distance" ;;
        let x := x + d * (obj - 1) in
        void (device_tap_rand x y w h) ;;
        logger DEBUG "Chose skill object {}." [AInt obj]
    end ;;
  wait INTERVAL_SHORT.

(** The branch of [use_master_skill] taken on the single-object prompt. *)
Definition choose_object_branch (self : BattleBot) (obj : option Z) : M unit :=
  match obj with
  | None => logger ERROR "Must choose a master skill object." []
  | Some obj =>
      if (1 <=? obj) && (obj <=? 3) then
        r <- button self "choose_object" ;;
        let '(x, y, w, h) := r in
        d <- distance self "choose_object_distance" ;;
        let x := x + d * (obj - 1) in
        void (device_tap_rand x y w h) ;;
        logger DEBUG "Chose master skill object {}." [AInt obj]
      else logger ERROR "Invalid master skill object." []
  end.

(** The branch of [use_master_skill] taken on the Order Change prompt. *)
Definition order_change_branch (self : BattleBot) (obj obj2 : option Z) : M unit :=
  match obj, obj2 with
  | Some obj, Some obj2 =>
      if (1 <=? obj) && (obj <=? 3) && ((4 <=? obj2) && (obj2 <=? 6)) then
        r <- button self "change" ;;
        let '(x, y, w, h) := r in
        d <- distance self "change_distance" ;;
        let x := x + d * (obj - 1) in
        void (device_tap_rand x y w h) ;;
        d <- distance self "change_distance" ;;
        let x := x + d * (obj2 - obj) in
        void (device_tap_rand x y w h) ;;
        logger DEBUG "Chose master skill object ({}, {})." [AInt obj; AInt obj2] ;;
        void (find_and_tap "change" None) ;;
        logger DEBUG "Order Change" []
      else logger ERROR "Invalid master skill object." []
  | _, _ => logger ERROR "Must choose two objects for Order Change." []
  end.

(** The opening of [use_master_skill], up to the wait that follows the tap
    on the skill slot: synchronise, open the menu, tap the slot. *)
Definition master_skill_select (fuel : nat) (self : BattleBot) (skill : Z)
  : M unit :=
  wait_until fuel "attack" ;;
  r <- button self "master_skill_menu" ;;
  let '(x, y, w, h) := r in
  void (device_tap_rand x y w h) ;;
  wait INTERVAL_SHORT ;;
  r <- button self "master_skill" ;;
  let '(x, y, w, h) := r in
  d <- distance self "master_skill_distance" ;;
  let x := x + d * (skill - 1) in
  void (device_tap_rand x y w h) ;;
  logger DEBUG "Used master skill {}" [AInt skill] ;;
  wait INTERVAL_SHORT.

(** [use_master_skill]: the opening, then the branch on the prompt that
    is on the screen, then the closing wait. *)
Definition use_master_skill (fuel : nat) (self : BattleBot)
    (skill : Z) (obj obj2 : option Z) : M unit :=
  master_skill_select fuel self skill ;;
  c <- exists_ "choose_object" None ;;
  (if c then choose_object_branch self obj
   else
     o <- exists_ "order_change" None ;;
     when_ o (order_change_branch self obj obj2)) ;;
  wait INTERVAL_SHORT.

(** The body of [for card in cards] in [attack]. *)
Definition tap_card (self : BattleBot) (card : Z) : M unit :=
  if (1 <=? card) && (card <=? 5) then
    r <- button self "card" ;;
    let '(x, y, w, h) := r in
    d <- distance self "card_distance" ;;
    let x := x + d * (card - 1) in
    void (device_tap_rand x y w h)
  else if (6 <=? card) && (card <=? 8) then
    r <- button self "noble_card" ;;
    let '(x, y, w, h) := r in
    d <- distance self "card_distance" ;;
    let x := x + d * (card - 6) in
    void (device_tap_rand x y w h)
  else logger ERROR "Card number must be in range [1, 8]" [].

(** [attack] *)
Definition attack (fuel : nat) (self : BattleBot) (cards : list Z) : M unit :=
  assert (bool_decide (length cards = 3%nat)) "Number of cards must be 3." ;;
  assert (bool_decide (size (list_to_set cards : gset Z) = 3%nat))
         "Cards must be distinct." ;;
  wait_until fuel "attack" ;;
  void (find_and_tap "attack" None) ;;
  wait (INTERVAL_SHORT * 2) ;;
  for_each cards (tap_card self) ;;
  logger DEBUG "Attack." [].

(** ** The runner *)

(** [a / b] on numbers: true division. *)
Definition truediv (a b : Z) : M Q :=
  if b =? 0 then raise ZeroDivisionError
  else ret (Qmake (a * Z.sgn b) (Z.to_pos (Z.abs b))).

(** One battle after a successful (re)entry: play, end, count and log. *)
Definition battle_cycle (fuel : nat) (self : BattleBot) (battlestart count : Z)
  : M Z :=
  rounds <- play_battle fuel self ;;
  end_battle fuel ;;
  let count := count + 1 in
  battleend <- time ;;
  logger INFO "{}-th Battle complete. {} rounds played. Time: {}"
         [AInt count; AInt rounds; AInt (battleend - battlestart)] ;;
  ret count.

(** The [while (count < max_loops) and (enter_flag == 0)] loop of [run];
    the result is the final [count]. *)
Fixpoint run_loop (budget fuel : nat) (self : BattleBot)
    (max_loops enter_flag count : Z) : M Z :=
  if (count <? max_loops) && (enter_flag =? 0) then
    match budget with
    | O => out_of_fuel
    | S budget' =>
        battlestart <- time ;;
        ok <- reenter_battle fuel self ;;
        if negb ok then
          logger INFO "Quit..." [] ;;
          ret count
        else
          count <- battle_cycle fuel self battlestart count ;;
          run_loop budget' fuel self max_loops enter_flag count
    end
  else ret count.

(** [run]; the loop runs at most [max_loops] times. *)
Definition run (fuel : nat) (self : BattleBot) (max_loops : Z) : M unit :=
  let count := 0 in
  let enter_flag := 0 in
  starttime <- time ;;
  battlestart <- time ;;
  ok <- enter_battle fuel self ;;
  enter_flag <- (if negb ok then
                   logger INFO "Quit..." [] ;;
                   ret 1
                 else ret enter_flag) ;;
  count <- (if enter_flag =? 0 then battle_cycle fuel self battlestart count
            else ret count) ;;
  count <- run_loop (Z.to_nat max_loops) fuel self max_loops enter_flag count ;;
  endtime <- time ;;
  average <- truediv (endtime - starttime) count ;;
  logger INFO "{} Battles played.\nTotal time: {} sec, average time: {} sec\nEnd"
         [AInt count; AInt (endtime - starttime); ARat average].

(** ** A stub layout and stub worlds for concrete runs *)

Module Stub.

Definition layout : gmap string BtnVal :=
  list_to_map
    [("skill", Rect 50 580 60 60);
     ("servant_distance", Num 320);
     ("skill_distance", Num 90);
     ("choose_object", Rect 250 400 120 120);
     ("choose_object_distance", Num 330);
     ("master_skill_menu", Rect 1180 300 50 50);
     ("master_skill", Rect 890 300 50 50);
     ("master_skill_distance", Num 90);
     ("change", Rect 110 300 100 100);
     ("change_distance", Num 200);
     ("card", Rect 70 450 120 150);
     ("noble_card", Rect 350 150 120 150);
     ("card_distance", Num 255);
     ("swipe", Tracks (list_to_map
                         [("friend", (640, 600, 640, 300));
                          ("quest", (900, 500, 900, 300))]))].

Definition bot (n : Z) (items : option (list string)) : BattleBot :=
  {| stage_handlers := ∅; stage_count := n; friend_count := 1;
     ap := items; threshold := 97 # 100; buttons := layout |}.

(** A frame on which the images in [shown] are matched at (100, 200) and
    no other image is. *)
Definition frame (shown : list string) : Frame :=
  {| f_exists := fun im _ => bool_decide (im ∈ shown);
     f_find := fun im _ => if bool_decide (im ∈ shown) then (100, 200)
                           else (-1, -1);
     f_probability := fun im => if bool_decide (im ∈ shown) then 1%Q else 0%Q |}.

(** A world whose screen always shows [shown]; every tap succeeds. *)
Definition world (shown : list string) : World :=
  {| feed := fun _ => frame shown; captured := 0; screen := frame shown;
     tm_size := fun _ => (40, 30); tap_ok := fun _ => true;
     rng := fun k => Z.of_nat k; drawn := 0; now := 0; trace := [] |}.

End Stub.

(** ** Definitions used to state the properties *)

(** The single event [__find_and_tap] leaves: the tap on the matched image,
    or the warning that it was not found. *)
Definition find_and_tap_event (w : World) (im : string) (thr : option Q) : Event :=
  let '(x, y) := f_find (screen w) im thr in
  if decide ((x, y) = (-1, -1)) then
    Log WARNING "Failed to find image {} on screen." [AStr im]
  else
    let '(wd, h) := tm_size w im in Tap x y wd h.

(** What one iteration of the card loop of [attack] leaves in the trace,
    for a layout whose card rectangle is (cx, cy, cw, ch), whose
    noble-phantasm card rectangle is (nx, ny, nw, nh) and whose card
    distance is cd. *)
Definition card_event (cx cy cw ch nx ny nw nh cd : Z) (card : Z) : Event :=
  if (1 <=? card) && (card <=? 5) then Tap (cx + cd * (card - 1)) cy cw ch
  else if (6 <=? card) && (card <=? 8) then Tap (nx + cd * (card - 6)) ny nw nh
  else Log ERROR "Card number must be in range [1, 8]" [].

(** A handler that leaves a log record naming its stage. *)
Definition probe (s : Z) : Handler :=
  {| h_name := "stage_" +:+ pretty s;
     h_call := logger INFO "stage {}" [AInt s] |}.

(** A bot with three stages and a probe registered at each. *)
Definition probed_bot : BattleBot :=
  set_stage_handlers (list_to_map [(1, probe 1); (2, probe 2); (3, probe 3)])
                     (Stub.bot 3 None).

(** The invariant of the data model: every index that holds a handler lies
    in [1, stage_count]. *)
Definition indices_in_range (self : BattleBot) : Prop :=
  forall (k : Z) (f : Handler),
    stage_handlers self !! k = Some f -> 1 <= k <= stage_count self.

(** One stage as the specification words it: wait for the attack control,
    invoke the handler of the stage, pause a long interval. *)
Definition stage_step (fuel : nat) (h : Z -> Handler) (s : Z) : M unit :=
  wait_until fuel "attack" ;;
  h_call (h s) ;;
  wait INTERVAL_LONG.

(** The stages 1, 2, ..., [n], each once, in ascending order; the result is
    the number of stages. *)
Definition stages_in_order (fuel : nat) (h : Z -> Handler) (n : Z) : M Z :=
  logger INFO "Handling the battle" [] ;;
  for_each (seqZ 1 n) (stage_step fuel h) ;;
  ret n.

(** A computation only appends to the trace. *)
Definition extends {A} (m : M A) : Prop :=
  forall w r w', m w = (r, w') -> exists es, trace w' = trace w ++ es.

(** The prompt on the screen after the opening asks for a selection that
    the arguments do not resolve.  The Order Change prompt is consulted only
    when the single-object prompt is not on the screen. *)
Definition unresolved_selection (w2 : World) (obj obj2 : option Z) : Prop :=
  (f_exists (screen w2) "choose_object" None = true
   /\ (obj = None \/ exists o, obj = Some o /\ ~ (1 <= o <= 3)))
  \/ (f_exists (screen w2) "choose_object" None = false
      /\ f_exists (screen w2) "order_change" None = true
      /\ (obj = None \/ obj2 = None
          \/ exists o o2, obj = Some o /\ obj2 = Some o2
                          /\ ~ (1 <= o <= 3 /\ 4 <= o2 <= 6))).

(** The world in which the stub bot has opened master skill 2 while the
    screen shows the attack control and the Order Change prompt. *)
Definition order_change_world : World :=
  (master_skill_select 5 (Stub.bot 3 None) 2
     (Stub.world ["attack"; "order_change"])).2.

(** The same opening on a screen that shows the single-object prompt. *)
Definition choose_object_world : World :=
  (master_skill_select 5 (Stub.bot 3 None) 2
     (Stub.world ["attack"; "choose_object"])).2.

(** ** The rest of [BattleBot]: the current stage *)

(** [tm.probability(im)]; matching probabilities are modelled as rationals
    and the floor 0.8 of [__get_current_stage] as 8/10. *)
Definition tm_probability (im : string) : M Q :=
  fun w => (Ok (f_probability (screen w) im), w).

(** ['{}_{}'.format(stage, self.stage_count)] *)
Definition stage_image (stage count : Z) : string :=
  pretty stage +:+ "_" +:+ pretty count.

(** [for stage in range(1, self.stage_count + 1)] of [__get_current_stage];
    the result is the final [(max_prob, max_stage)]. *)
Fixpoint best_stage_loop (self : BattleBot) (stages : list Z)
    (max_prob : Q) (max_stage : Z) : M (Q * Z) :=
  match stages with
  | [] => ret (max_prob, max_stage)
  | stage :: rest =>
      let im := stage_image stage (stage_count self) in
      prob <- tm_probability im ;;
      if negb (Qle_bool prob max_prob) then best_stage_loop self rest prob stage
      else best_stage_loop self rest max_prob max_stage
  end.

(** [__get_current_stage] *)
Definition get_current_stage (fuel : nat) (self : BattleBot) : M Z :=
  wait_until fuel "attack" ;;
  r <- best_stage_loop self (seqZ 1 (stage_count self)) (8 # 10) (-1) ;;
  let '(max_prob, max_stage) := r in
  (if max_stage =? -1 then logger ERROR "Failed to get current stage." []
   else logger DEBUG "Got current stage: {}" [AInt max_stage]) ;;
  ret max_stage.

(** ** Definitions used to state the further properties *)

(** The body of the polling loop of [__wait_until]: wait, then tap the
    reconnect prompt if it is on the screen. *)
Definition poll_body : M unit :=
  wait INTERVAL_SHORT ;;
  r <- exists_ "reconnect" None ;;
  (if r then find_and_tap "reconnect" None ;; ret tt else ret tt).

(** The frames a polling loop sees from world [w]: the cached one first,
    then the ones the device will deliver. *)
Definition view (w : World) (j : nat) : Frame :=
  match j with
  | O => screen w
  | S j' => feed w (captured w + j')%nat
  end.

(** A world like [Stub.world] whose first [k] captured frames show
    nothing; the later ones show [shown]. *)
Definition late_world (k : nat) (shown : list string) : World :=
  {| feed := fun j => if (j <? k)%nat then Stub.frame [] else Stub.frame shown;
     captured := 0; screen := Stub.frame [];
     tm_size := fun _ => (40, 30); tap_ok := fun _ => true;
     rng := fun j => Z.of_nat j; drawn := 0; now := 0; trace := [] |}.

(** The matcher's probability for the indicator of stage [k] on the frame
    cached in [w]. *)
Definition stage_prob (self : BattleBot) (w : World) (k : Z) : Q :=
  f_probability (screen w) (stage_image k (stage_count self)).

(** The i-th jitter [randint(-5, 5)] drawn from world [w]. *)
Definition jitter (w : World) (i : nat) : Z :=
  -5 + rng w (drawn w + i)%nat `mod` 11.

Definition is_swipe (e : Event) : bool :=
  match e with
  | Swipe _ _ _ _ => true
  | _ => false
  end.

(** The number of swipes in a trace. *)
Definition swipes (t : list Event) : nat := length (List.filter is_swipe t).

(** Roster entry [fid] is matched on frame [fr] at the bot's threshold. *)
Definition friend_shown (self : BattleBot) (fr : Frame) (fid : nat) : bool :=
  f_exists fr (friend_image fid) (Some (threshold self)).

(** A world on which the refresh control is always shown and the first
    roster entry appears from the fourth captured frame on. *)
Definition roster_world : World :=
  {| feed := fun j => if (j <? 3)%nat then Stub.frame ["refresh_friends"]
                      else Stub.frame ["refresh_friends"; "f_0"];
     captured := 0; screen := Stub.frame [];
     tm_size := fun _ => (40, 30); tap_ok := fun _ => true;
     rng := fun j => Z.of_nat j; drawn := 0; now := 0; trace := [] |}.

(** [play_battle] up to the stage whose handler is missing: the stages
    before [s] in order, the wait of stage [s], then the failed lookup. *)
Definition stages_until_missing (fuel : nat) (h : Z -> Handler) (s : Z) : M Z :=
  logger INFO "Handling the battle" [] ;;
  for_each (seqZ 1 (s - 1)) (stage_step fuel h) ;;
  wait_until fuel "attack" ;;
  raise (KeyErrorInt s).

(** The world [use_skill] reaches, from the world [w1] in which the attack
    control was found, once it has tapped rectangle (x, y, wd, h), logged
    the skill and waited: the point at which it looks for the object
    prompt. *)
Definition after_skill_tap (w1 : World) (x y wd h servant skill : Z) : World :=
  refresh
    (advance 1
       (emit (Sleep 1)
          (emit (Log DEBUG "Sleep {} seconds." [AInt 1])
             (emit (Log DEBUG "Used skill ({}, {})" [AInt servant; AInt skill])
                (emit (Tap x y wd h) w1))))).

(** The opening of [__enter_battle], up to the wait that follows the tap
    on the quest. *)
Definition enter_opening (fuel : nat) (self : BattleBot) : M unit :=
  logger INFO "Trying to enter the battle" [] ;;
  wait_until fuel "menu" ;;
  tap_quest_loop fuel self ;;
  wait INTERVAL_SHORT.

(** The opening of [__reenter_battle], up to the wait that follows the
    tap on the continue control. *)
Definition reenter_opening (fuel : nat) : M unit :=
  logger INFO "Trying to re-enter the battle" [] ;;
  tap_cont_loop fuel ;;
  wait INTERVAL_SHORT.

(** The record [run] logs last. *)
Definition summary (count total : Z) (average : Q) : Event :=
  Log INFO "{} Battles played.\nTotal time: {} sec, average time: {} sec\nEnd"
      [AInt count; AInt total; ARat average].

(** A screen on which a whole battle goes through: the menu, the quest,
    the friend list with the first roster entry, the start control, the
    attack control and the result control are all matched, and the
    insufficient-AP prompt is not. *)
Definition battle_world : World :=
  Stub.world ["menu"; "quest"; "refresh_friends"; "f_0"; "start_quest";
              "attack"; "next_step"; "cont"].

(** The body of the polling loop of [end_battle]: tap the middle of the
    screen, wait, then tap the reconnect prompt if it is on the screen. *)
Definition next_step_body : M unit :=
  void (device_tap_rand 640 360 50 50) ;;
  wait INTERVAL_SHORT ;;
  r <- exists_ "reconnect" None ;;
  when_ r (void (find_and_tap "reconnect" None)).

(** ** [AssistBot]: drawing cards *)

Record AssistBot := {
  n_iter : Z;
  assist_threshold : Q
}.

Module Assist.

(** The default of the [threshold] parameter of [AssistBot.__find_and_tap]
    and [AssistBot.__exists]. *)
Definition default_threshold : Q := 97 # 100.

(** [AssistBot.__find_and_tap]; [thr = None] is a call without threshold. *)
Definition find_and_tap (im : string) (thr : option Q) : M bool :=
  let threshold := default default_threshold thr in
  xy <- tm_find im (Some threshold) ;;
  let '(x, y) := xy in
  if decide ((x, y) = (-1, -1)) then
    logger WARNING "Failed to find image {} on screen." [AStr im] ;;
    ret false
  else
    wh <- tm_getsize im ;;
    let '(w, h) := wh in
    device_tap_rand x y w h.

(** [AssistBot.__exists] *)
Definition exists_ (im : string) (thr : option Q) : M bool :=
  tm_exists im (Some (default default_threshold thr)).

(** The [while] loop of [AssistBot.__wait_until]. *)
Fixpoint wait_until_loop (fuel : nat) (im : string) : M unit :=
  b <- exists_ im None ;;
  if negb b then
    match fuel with
    | O => out_of_fuel
    | S fuel' =>
        wait INTERVAL_SHORT ;;
        r <- exists_ "reconnect" None ;;
        (if r then find_and_tap "reconnect" None ;; ret tt else ret tt) ;;
        wait_until_loop fuel' im
    end
  else ret tt.

(** [AssistBot.__wait_until] *)
Definition wait_until (fuel : nat) (im : string) : M unit :=
  logger DEBUG "Wait until image '{}' appears." [AStr im] ;;
  tm_update_screen ;;
  wait_until_loop fuel im.

(** [for i in range(self.n_iter)] of [drawcard], with its [break]; [i] is
    the value the loop variable holds so far, and the result is the value
    it holds when the loop is left. *)
Fixpoint drawcard_loop (fuel : nat) (self : AssistBot) (rest : list Z) (i : Z)
  : M Z :=
  match rest with
  | [] => ret i
  | i :: rest =>
      wait_until fuel "draw10cards" ;;
      void (find_and_tap "draw10cards" (Some (assist_threshold self))) ;;
      wait INTERVAL_SHORT ;;
      d <- find_and_tap "decide1" (Some (assist_threshold self)) ;;
      if d then
        wait (INTERVAL_SHORT * 3) ;;
        void (device_tap_rand 20 700 10 10) ;;
        logger INFO "{}-th draw" [AInt (i + 1)] ;;
        wait (INTERVAL_SHORT * 2) ;;
        void (device_tap_rand 20 700 10 10) ;;
        drawcard_loop fuel self rest i
      else ret i
  end.

(** [drawcard] *)
Definition drawcard (fuel : nat) (self : AssistBot) : M unit :=
  start <- time ;;
  let i := 0 in
  i <- drawcard_loop fuel self (seqZ 0 (n_iter self)) i ;;
  end_ <- time ;;
  logger INFO "{}-th draw. Time: {} sec." [AInt (i + 1); AInt (end_ - start)].

End Assist.
(** A screen on which ten cards can be drawn and confirmed. *)
Definition draw_world : World := Stub.world ["draw10cards"; "decide1"].

(** * Properties *)

(** ** Running the monad *)

Lemma bind_ok {A B} (m : M A) (k : A -> M B) w a w' :
  m w = (Ok a, w') -> bind m k w = k a w'.
Proof. intros H. unfold bind. by rewrite H. Qed.

Lemma bind_raise {A B} (m : M A) (k : A -> M B) w e w' :
  m w = (Raise e, w') -> bind m k w = (Raise e, w').
Proof. intros H. unfold bind. by rewrite H. Qed.

Lemma bind_assoc {A B C} (m : M A) (k : A -> M B) (k' : B -> M C) w :
  bind (bind m k) k' w = bind m (fun a => bind (k a) k') w.
Proof. unfold bind. by destruct (m w) as [[a|e|] w']. Qed.

Lemma bind_ext {A B} (m : M A) (k k' : A -> M B) w :
  (forall a w', m w = (Ok a, w') -> k a w' = k' a w') ->
  bind m k w = bind m k' w.
Proof. intros H. unfold bind. destruct (m w) as [[a|e|] w']; auto. Qed.

Lemma button_rect self btn x y wd h w :
  buttons self !! btn = Some (Rect x y wd h) ->
  button self btn w = (Ok (x, y, wd, h), w).
Proof. intros H. unfold button, buttons_get, bind. by rewrite H. Qed.

Lemma distance_num self key d w :
  buttons self !! key = Some (Num d) -> distance self key w = (Ok d, w).
Proof. intros H. unfold distance, buttons_get, bind. by rewrite H. Qed.

Lemma void_tap x y wd h w :
  void (device_tap_rand x y wd h) w = (Ok tt, emit (Tap x y wd h) w).
Proof. reflexivity. Qed.

Lemma logger_run lvl fmt args w :
  logger lvl fmt args w = (Ok tt, emit (Log lvl fmt args) w).
Proof. reflexivity. Qed.

Lemma wait_run sec w :
  wait sec w =
  (Ok tt, refresh (advance sec (emit (Sleep sec)
                     (emit (Log DEBUG "Sleep {} seconds." [AInt sec]) w)))).
Proof. reflexivity. Qed.

Lemma void_find_and_tap im thr w :
  void (find_and_tap im thr) w = (Ok tt, emit (find_and_tap_event w im thr) w).
Proof.
  unfold void, find_and_tap, find_and_tap_event, bind, tm_find. simpl.
  destruct (f_find (screen w) im thr) as [x y].
  destruct (decide ((x, y) = (-1, -1))); [done|].
  unfold tm_getsize. by destruct (tm_size w im).
Qed.

(** ** Sets of cards *)

Lemma size_list_to_set_le (l : list Z) :
  (size (list_to_set l : gset Z) <= length l)%nat.
Proof.
  induction l as [|x l IH]; [by rewrite list_to_set_nil, size_empty|].
  rewrite list_to_set_cons, size_union_alt, size_singleton. simpl.
  assert (size ((list_to_set l : gset Z) ∖ {[x]}) <= size (list_to_set l : gset Z))%nat
    by (by apply subseteq_size, subseteq_difference_l).
  lia.
Qed.

Lemma size_list_to_set_NoDup (l : list Z) :
  size (list_to_set l : gset Z) = length l <-> NoDup l.
Proof.
  split; [|apply size_list_to_set].
  induction l as [|x l IH]; [constructor|].
  rewrite list_to_set_cons. simpl. intros Hsz.
  pose proof (size_list_to_set_le l) as Hle.
  destruct (decide (x ∈ l)) as [Hin|Hnin].
  - rewrite (subseteq_union_1_L ({[x]} : gset Z) (list_to_set l)) in Hsz
      by (by apply singleton_subseteq_l, elem_of_list_to_set).
    lia.
  - rewrite size_union, size_singleton in Hsz
      by (by apply disjoint_singleton_l; rewrite elem_of_list_to_set).
    constructor; [done|]. apply IH. lia.
Qed.

(** ** [attack] *)

(** C3. A card list whose length is not 3, or which contains a duplicate,
    makes [attack] fail on one of its two assertions before anything else
    happens: the world is returned unchanged, so no tap (neither on the
    attack button nor on a card) and no other event is issued. *)
Theorem attack_rejects_malformed_cards fuel self (cards : list Z) w :
  length cards <> 3%nat \/ ~ NoDup cards ->
  exists msg, attack fuel self cards w = (Raise (AssertionError msg), w).
Proof.
  intros Hbad. unfold attack.
  destruct (bool_decide (length cards = 3%nat)) eqn:Hlen.
  - apply bool_decide_eq_true in Hlen.
    destruct (bool_decide (size (list_to_set cards : gset Z) = 3%nat)) eqn:Hsz.
    + apply bool_decide_eq_true in Hsz.
      destruct Hbad as [Hne | Hdup]; [done|].
      exfalso. apply Hdup, size_list_to_set_NoDup. congruence.
    + eexists. reflexivity.
  - eexists. reflexivity.
Qed.

Lemma attack_rejects_malformed_cards_witness :
  exists msg,
    attack 5 (Stub.bot 3 None) [4; 1; 4] (Stub.world ["attack"])
    = (Raise (AssertionError msg), Stub.world ["attack"]).
Proof.
  apply (attack_rejects_malformed_cards 5 (Stub.bot 3 None) [4; 1; 4]).
  right. intros Hnd. apply NoDup_cons in Hnd as [Hnin _].
  apply Hnin. set_solver.
Defined.

Section AttackCards.

Variable self : BattleBot.
Variables (cx cy cw ch nx ny nw nh cd : Z).
Hypothesis Hcard : buttons self !! "card" = Some (Rect cx cy cw ch).
Hypothesis Hnoble : buttons self !! "noble_card" = Some (Rect nx ny nw nh).
Hypothesis Hdist : buttons self !! "card_distance" = Some (Num cd).

Lemma tap_card_run card w :
  tap_card self card w
  = (Ok tt, emit (card_event cx cy cw ch nx ny nw nh cd card) w).
Proof using Hcard Hnoble Hdist.
  unfold tap_card, card_event.
  destruct ((1 <=? card) && (card <=? 5)).
  - rewrite (bind_ok _ _ _ _ _ (button_rect _ _ _ _ _ _ w Hcard)).
    by rewrite (bind_ok _ _ _ _ _ (distance_num _ _ _ w Hdist)).
  - destruct ((6 <=? card) && (card <=? 8)); [|done].
    rewrite (bind_ok _ _ _ _ _ (button_rect _ _ _ _ _ _ w Hnoble)).
    by rewrite (bind_ok _ _ _ _ _ (distance_num _ _ _ w Hdist)).
Qed.

Lemma tap_cards_run cards w :
  exists w', for_each cards (tap_card self) w = (Ok tt, w')
             /\ trace w' = trace w
                            ++ map (card_event cx cy cw ch nx ny nw nh cd) cards.
Proof using Hcard Hnoble Hdist.
  revert w. induction cards as [|c cards IH]; intros w; simpl.
  - exists w. by rewrite app_nil_r.
  - rewrite (bind_ok _ _ _ _ _ (tap_card_run c w)).
    destruct (IH (emit (card_event cx cy cw ch nx ny nw nh cd c) w))
      as (w' & Hrun & Htr).
    exists w'. split; [done|]. rewrite Htr. simpl. by rewrite <- app_assoc.
Qed.

End AttackCards.

(** C1 (as amended). A list of exactly 3 distinct cards is never a fatal
    precondition violation, whatever the values are: once the attack
    control is ready, [attack] taps it (or logs that it was not found),
    waits, handles the cards in list order, one event per card (a tap on
    the normal grid for 1..5, on the noble-phantasm grid for 6..8, and for a
    value outside [1, 8] an ERROR log record and no tap), and returns
    normally. *)
Theorem attack_three_distinct_cards_returns
    fuel self (cards : list Z) w w1 cx cy cw ch nx ny nw nh cd :
  buttons self !! "card" = Some (Rect cx cy cw ch) ->
  buttons self !! "noble_card" = Some (Rect nx ny nw nh) ->
  buttons self !! "card_distance" = Some (Num cd) ->
  length cards = 3%nat ->
  NoDup cards ->
  wait_until fuel "attack" w = (Ok tt, w1) ->
  exists w',
    attack fuel self cards w = (Ok tt, w')
    /\ trace w' =
       trace w1
       ++ [find_and_tap_event w1 "attack" None;
           Log DEBUG "Sleep {} seconds." [AInt 2]; Sleep 2]
       ++ map (card_event cx cy cw ch nx ny nw nh cd) cards
       ++ [Log DEBUG "Attack." []].
Proof.
  intros Hcard Hnoble Hdist Hlen Hnd Hwait. unfold attack.
  rewrite (bool_decide_eq_true_2 _ Hlen).
  rewrite (bool_decide_eq_true_2 (size (list_to_set cards : gset Z) = 3%nat))
    by (rewrite <- Hlen; by apply size_list_to_set_NoDup).
  unfold assert.
  rewrite (bind_ok _ _ w tt w eq_refl).
  rewrite (bind_ok _ _ w tt w eq_refl).
  rewrite (bind_ok _ _ _ _ _ Hwait).
  rewrite (bind_ok _ _ _ _ _ (void_find_and_tap _ _ _)).
  rewrite (bind_ok _ _ _ _ _ (wait_run _ _)).
  match goal with
  | |- context [bind (for_each _ _) _ ?w0] =>
      destruct (tap_cards_run self cx cy cw ch nx ny nw nh cd
                  Hcard Hnoble Hdist cards w0) as (w' & Hrun & Htr)
  end.
  rewrite (bind_ok _ _ _ _ _ Hrun).
  eexists. split; [reflexivity|].
  simpl. rewrite Htr. simpl. by rewrite <- !app_assoc.
Qed.

Lemma attack_three_distinct_cards_returns_witness :
  exists w',
    attack 5 (Stub.bot 3 None) [6; 1; 2] (Stub.world ["attack"]) = (Ok tt, w')
    /\ trace w' =
       trace (refresh (emit (Log DEBUG "Wait until image '{}' appears."
                                 [AStr "attack"]) (Stub.world ["attack"])))
       ++ [find_and_tap_event
             (refresh (emit (Log DEBUG "Wait until image '{}' appears."
                                 [AStr "attack"]) (Stub.world ["attack"])))
             "attack" None;
           Log DEBUG "Sleep {} seconds." [AInt 2]; Sleep 2]
       ++ map (card_event 70 450 120 150 350 150 120 150 255) [6; 1; 2]
       ++ [Log DEBUG "Attack." []].
Proof.
  apply (attack_three_distinct_cards_returns 5 (Stub.bot 3 None) [6; 1; 2]
           (Stub.world ["attack"]));
    try reflexivity.
  apply (bool_decide_unpack _). vm_compute. exact I.
Defined.

(** C1 (as stated) fails: [1; 2; 9] has three distinct values, 9 lies
    outside [1, 8], and [attack] returns normally after tapping the attack
    button and the two valid cards; the bad card only costs a log record. *)
Lemma attack_out_of_range_is_not_fatal :
  length [1; 2; 9] = 3%nat
  /\ NoDup [1; 2; 9]
  /\ ~ (1 <= 9 <= 8)
  /\ (attack 5 (Stub.bot 3 None) [1; 2; 9] (Stub.world ["attack"])).1 = Ok tt
  /\ trace (attack 5 (Stub.bot 3 None) [1; 2; 9] (Stub.world ["attack"])).2
     = [Log DEBUG "Wait until image '{}' appears." [AStr "attack"];
        Tap 100 200 40 30;
        Log DEBUG "Sleep {} seconds." [AInt 2]; Sleep 2;
        Tap 70 450 120 150; Tap 325 450 120 150;
        Log ERROR "Card number must be in range [1, 8]" [];
        Log DEBUG "Attack." []].
Proof.
  split; [reflexivity|].
  split; [apply (bool_decide_unpack _); vm_compute; exact I|].
  split; [lia|].
  split; vm_compute; reflexivity.
Qed.

(** ** The stage-handler registry *)

Lemma add_stage_handler_free self stage f w :
  stage_handlers self !! stage = None ->
  add_stage_handler self stage f w
  = (Ok (set_stage_handlers (<[stage := f]> (stage_handlers self)) self),
     emit (Log DEBUG "Function {} registered to stage {}"
               [AStr (h_name f); AInt stage]) w).
Proof. intros H. unfold add_stage_handler. by rewrite H. Qed.

Lemma add_stage_handler_taken self stage f w :
  is_Some (stage_handlers self !! stage) ->
  add_stage_handler self stage f w
  = (Raise (AssertionError "Cannot register multiple function to a single stage."),
     w).
Proof. intros [g H]. unfold add_stage_handler. by rewrite H. Qed.

(** C7. Registration through [at_stage] at a stage index that has no
    handler succeeds, hands the function back and stores it in the registry
    under that index; registration at an index that already has a handler
    fails on the assertion, leaving registry and world as they were. *)
Theorem at_stage_registers_once self (stage : Z) f w :
  (stage_handlers self !! stage = None ->
   exists self',
     at_stage self stage f w
     = (Ok (self', f),
        emit (Log DEBUG "Function {} registered to stage {}"
                  [AStr (h_name f); AInt stage]) w)
     /\ stage_handlers self' !! stage = Some f)
  /\ (is_Some (stage_handlers self !! stage) ->
      at_stage self stage f w
      = (Raise (AssertionError
                  "Cannot register multiple function to a single stage."), w)).
Proof.
  split; intros H; unfold at_stage.
  - rewrite (bind_ok _ _ _ _ _ (add_stage_handler_free self stage f w H)).
    eexists. split; [reflexivity|]. simpl. apply lookup_insert_eq.
  - by rewrite (bind_raise _ _ _ _ _ (add_stage_handler_taken self stage f w H)).
Qed.

Lemma at_stage_registers_once_witness :
  (exists self',
     at_stage (Stub.bot 3 None) 2 (probe 2) (Stub.world [])
     = (Ok (self', probe 2),
        emit (Log DEBUG "Function {} registered to stage {}"
                  [AStr (h_name (probe 2)); AInt 2]) (Stub.world []))
     /\ stage_handlers self' !! 2 = Some (probe 2))
  /\ at_stage (set_stage_handlers {[2 := probe 2]} (Stub.bot 3 None)) 2 (probe 7)
              (Stub.world [])
     = (Raise (AssertionError
                 "Cannot register multiple function to a single stage."),
        Stub.world []).
Proof.
  split.
  - apply (at_stage_registers_once (Stub.bot 3 None) 2 (probe 2) (Stub.world [])).
    reflexivity.
  - apply (at_stage_registers_once
             (set_stage_handlers {[2 := probe 2]} (Stub.bot 3 None)) 2 (probe 7)
             (Stub.world [])).
    exists (probe 2). reflexivity.
Defined.

(** C8 (as amended). Registration never looks at [stage_count]: at any
    free index, inside or outside [1, stage_count], it succeeds and stores
    the handler.  Hence, from a registry that satisfies the range invariant,
    the invariant holds afterwards exactly when the new index is itself in
    [1, stage_count]. *)
Theorem add_stage_handler_ignores_range self (stage : Z) f w :
  indices_in_range self ->
  stage_handlers self !! stage = None ->
  exists self' w',
    add_stage_handler self stage f w = (Ok self', w')
    /\ stage_handlers self' = <[stage := f]> (stage_handlers self)
    /\ stage_count self' = stage_count self
    /\ (indices_in_range self' <-> 1 <= stage <= stage_count self).
Proof.
  intros Hinv Hfree. do 2 eexists.
  split; [by apply add_stage_handler_free|].
  split; [done|]. split; [done|].
  unfold indices_in_range. simpl. split.
  - intros H. apply (H stage f), lookup_insert_eq.
  - intros Hrange k g. rewrite lookup_insert.
    case_decide; [by subst|]. apply Hinv.
Qed.

Lemma add_stage_handler_ignores_range_witness :
  exists self' w',
    add_stage_handler (Stub.bot 3 None) 7 (probe 7) (Stub.world []) = (Ok self', w')
    /\ stage_handlers self' = <[7 := probe 7]> (stage_handlers (Stub.bot 3 None))
    /\ stage_count self' = stage_count (Stub.bot 3 None)
    /\ (indices_in_range self' <-> 1 <= 7 <= stage_count (Stub.bot 3 None)).
Proof.
  apply (add_stage_handler_ignores_range (Stub.bot 3 None) 7 (probe 7)).
  - intros k g. simpl. by rewrite lookup_empty.
  - reflexivity.
Defined.

(** C8 (as stated) fails: with [stage_count = 3] and an empty registry, a
    handler registered at index 7 is accepted and stored, and the registry
    no longer satisfies the range invariant. *)
Lemma registration_outside_range_accepted :
  indices_in_range (Stub.bot 3 None)
  /\ ~ (1 <= 7 <= stage_count (Stub.bot 3 None))
  /\ exists self' w',
       add_stage_handler (Stub.bot 3 None) 7 (probe 7) (Stub.world [])
       = (Ok self', w')
       /\ stage_handlers self' !! 7 = Some (probe 7)
       /\ ~ indices_in_range self'.
Proof.
  split; [intros k g; simpl; by rewrite lookup_empty|].
  split; [simpl; lia|].
  do 2 eexists. split; [reflexivity|].
  split; [reflexivity|].
  intros H. specialize (H 7 (probe 7) eq_refl). simpl in H. lia.
Qed.

(** ** [play_battle] *)

Lemma handler_at_registered self s f w :
  stage_handlers self !! s = Some f -> handler_at self s w = (Ok f, w).
Proof. intros H. unfold handler_at. by rewrite H. Qed.

Lemma play_loop_in_order fuel self (h : Z -> Handler) :
  (forall s, 1 <= s <= stage_count self -> stage_handlers self !! s = Some (h s)) ->
  forall budget stage w,
    0 <= stage <= stage_count self ->
    budget = Z.to_nat (stage_count self - stage) ->
    play_loop budget fuel self stage w
    = (for_each (seqZ (stage + 1) (stage_count self - stage)) (stage_step fuel h) ;;
       ret (stage_count self)) w.
Proof.
  intros Hreg. induction budget as [|budget IH]; intros stage w Hst Hb.
  - assert (stage = stage_count self) as -> by lia.
    simpl. rewrite Z.ltb_irrefl, Z.sub_diag, seqZ_nil by lia. reflexivity.
  - simpl. rewrite (proj2 (Z.ltb_lt _ _)) by lia.
    rewrite (seqZ_cons (stage + 1)) by lia. simpl.
    replace (Z.succ (stage + 1)) with (stage + 1 + 1) by lia.
    replace (Z.pred (stage_count self - stage))
      with (stage_count self - (stage + 1)) by lia.
    unfold stage_step at 1. rewrite !bind_assoc.
    apply bind_ext; intros [] w1 _. cbv beta.
    rewrite (bind_ok _ _ _ _ _
               (handler_at_registered self (stage + 1) (h (stage + 1)) w1
                  (Hreg (stage + 1) ltac:(lia)))).
    rewrite !bind_assoc. apply bind_ext; intros [] w2 _. cbv beta.
    apply bind_ext; intros [] w3 _.
    apply IH; lia.
Qed.

Lemma stages_in_order_result fuel h n w r w' :
  stages_in_order fuel h n w = (Ok r, w') -> r = n.
Proof.
  unfold stages_in_order, bind, logger, ret.
  destruct (for_each _ _ _) as [[[]|e|] w1]; congruence.
Qed.

(** C4. When every stage index in [1, stage_count] has a registered
    handler, [play_battle] is the in-order run of the stages: it waits for
    the attack control, invokes the handler of stage 1, pauses, then the
    same for stage 2, and so on up to [stage_count], each registered handler
    being invoked exactly once; and whenever it completes normally the value
    it returns is [stage_count]. *)
Theorem play_battle_runs_stages_in_order fuel self (h : Z -> Handler) w :
  0 <= stage_count self ->
  (forall s, 1 <= s <= stage_count self -> stage_handlers self !! s = Some (h s)) ->
  play_battle fuel self w = stages_in_order fuel h (stage_count self) w
  /\ (forall r w', play_battle fuel self w = (Ok r, w') -> r = stage_count self).
Proof.
  intros Hn Hreg.
  assert (play_battle fuel self w = stages_in_order fuel h (stage_count self) w)
    as Heq.
  { unfold play_battle, stages_in_order.
    apply bind_ext; intros [] w1 _. cbv beta.
    rewrite (play_loop_in_order fuel self h Hreg (Z.to_nat (stage_count self)) 0 w1)
      by (try f_equal; lia).
    by rewrite Z.sub_0_r. }
  split; [done|]. intros r w' Hrun. rewrite Heq in Hrun.
  by apply stages_in_order_result in Hrun.
Qed.

Lemma play_battle_runs_stages_in_order_witness :
  play_battle 5 probed_bot (Stub.world ["attack"])
  = stages_in_order 5 probe 3 (Stub.world ["attack"])
  /\ (forall r w',
        play_battle 5 probed_bot (Stub.world ["attack"]) = (Ok r, w') -> r = 3).
Proof.
  apply (play_battle_runs_stages_in_order 5 probed_bot probe (Stub.world ["attack"])).
  - simpl. lia.
  - intros s Hs. simpl in Hs.
    assert (s = 1 \/ s = 2 \/ s = 3) as [-> | [-> | ->]] by lia; reflexivity.
Defined.

(** On a screen that shows the attack control, the three probes run once
    each, in ascending order, and the battle reports three stages. *)
Example play_battle_three_probes :
  (play_battle 5 probed_bot (Stub.world ["attack"])).1 = Ok 3
  /\ List.filter (fun e => match e with Log INFO _ _ => true | _ => false end)
                 (trace (play_battle 5 probed_bot (Stub.world ["attack"])).2)
     = [Log INFO "Handling the battle" [];
        Log INFO "stage {}" [AInt 1];
        Log INFO "stage {}" [AInt 2];
        Log INFO "stage {}" [AInt 3]].
Proof. split; vm_compute; reflexivity. Qed.

(** ** Traces only grow *)

Lemma extends_pure {A} (f : World -> Result A) : extends (fun w => (f w, w)).
Proof. intros w r w' [= _ <-]. exists []. by rewrite app_nil_r. Qed.

Lemma extends_ret {A} (a : A) : extends (ret a).
Proof. apply (extends_pure (fun _ => Ok a)). Qed.

Lemma extends_raise {A} e : extends (raise (A := A) e).
Proof. apply (extends_pure (fun _ => Raise e)). Qed.

Lemma extends_bind {A B} (m : M A) (k : A -> M B) :
  extends m -> (forall a, extends (k a)) -> extends (bind m k).
Proof.
  intros Hm Hk w r w'. unfold bind.
  destruct (m w) as [[a|e|] w1] eqn:E; destruct (Hm _ _ _ E) as [es1 H1].
  - intros Hr. destruct (Hk _ _ _ _ Hr) as [es2 H2].
    exists (es1 ++ es2). by rewrite H2, H1, app_assoc.
  - intros [= _ <-]. eauto.
  - intros [= _ <-]. eauto.
Qed.

Lemma extends_logger lvl fmt args : extends (logger lvl fmt args).
Proof. intros w r w' [= _ <-]. by eexists. Qed.

Lemma extends_wait sec : extends (wait sec).
Proof.
  intros w r w'. rewrite wait_run. intros [= _ <-]. simpl.
  eexists. by rewrite <- app_assoc.
Qed.

Lemma extends_exists im thr : extends (exists_ im thr).
Proof. apply (extends_pure (fun w => Ok (f_exists (screen w) im thr))). Qed.

Lemma extends_tap x y wd h : extends (device_tap_rand x y wd h).
Proof. intros w r w' [= _ <-]. by eexists. Qed.

Lemma extends_void {A} (m : M A) : extends m -> extends (void m).
Proof. intros H. apply extends_bind; [done|]. intros _. apply extends_ret. Qed.

Lemma extends_when c m : extends m -> extends (when_ c m).
Proof. intros H. destruct c; [done|]. apply extends_ret. Qed.

Lemma extends_buttons_get self key : extends (buttons_get self key).
Proof.
  unfold buttons_get. destruct (buttons self !! key);
    [apply extends_ret | apply extends_raise].
Qed.

Lemma extends_button self btn : extends (button self btn).
Proof.
  apply extends_bind; [apply extends_buttons_get|].
  intros []; first [apply extends_ret | apply extends_raise].
Qed.

Lemma extends_distance self key : extends (distance self key).
Proof.
  apply extends_bind; [apply extends_buttons_get|].
  intros []; first [apply extends_ret | apply extends_raise].
Qed.

Create HintDb extends_db.
#[local] Hint Resolve extends_ret extends_raise extends_logger extends_wait
  extends_exists extends_tap extends_void extends_when extends_button
  extends_distance : extends_db.

Ltac solve_extends :=
  repeat first
    [ solve [eauto with extends_db]
    | apply extends_bind; [|intros ?]
    | apply extends_when
    | apply extends_void
    | match goal with
      | |- extends (let '(_, _) := ?p in _) => destruct p
      | |- extends (match ?o with _ => _ end) => destruct o
      end ].

(** ** [use_skill] *)

(** C5. Once the attack control is ready, the first event of [use_skill]
    is the tap on the skill button, and its rectangle is the base skill
    rectangle moved along x only:
    x = skill.x + servant_distance * (servant - 1) + skill_distance * (skill - 1),
    with y, w and h those of the base rectangle. *)
Theorem use_skill_taps_offset_rect
    fuel self (servant skill : Z) (obj : option Z) w w1 x y wd h sd kd :
  buttons self !! "skill" = Some (Rect x y wd h) ->
  buttons self !! "servant_distance" = Some (Num sd) ->
  buttons self !! "skill_distance" = Some (Num kd) ->
  wait_until fuel "attack" w = (Ok tt, w1) ->
  exists r w' rest,
    use_skill fuel self servant skill obj w = (r, w')
    /\ trace w' =
       trace w1
       ++ Tap (x + sd * (servant - 1) + kd * (skill - 1)) y wd h :: rest.
Proof.
  intros Hrect Hsd Hkd Hwait. unfold use_skill.
  rewrite (bind_ok _ _ _ _ _ Hwait).
  rewrite (bind_ok _ _ _ _ _ (button_rect _ _ _ _ _ _ _ Hrect)).
  rewrite (bind_ok _ _ _ _ _ (distance_num _ _ _ _ Hsd)).
  rewrite (bind_ok _ _ _ _ _ (distance_num _ _ _ _ Hkd)).
  rewrite (bind_ok _ _ _ _ _ (void_tap _ _ _ _ _)).
  match goal with
  | |- context [bind ?m ?k ?w0] =>
      destruct (bind m k w0) as [r w'] eqn:Hrest;
      assert (extends (bind m k)) as Hext by solve_extends
  end.
  destruct (Hext _ _ _ Hrest) as [es Hes].
  exists r, w', es. split; [done|].
  rewrite Hes. simpl. by rewrite <- app_assoc.
Qed.

Lemma use_skill_taps_offset_rect_witness :
  exists r w' rest,
    use_skill 5 (Stub.bot 3 None) 2 3 (Some 1) (Stub.world ["attack"]) = (r, w')
    /\ trace w' =
       trace (refresh (emit (Log DEBUG "Wait until image '{}' appears."
                                 [AStr "attack"]) (Stub.world ["attack"])))
       ++ Tap (50 + 320 * (2 - 1) + 90 * (3 - 1)) 580 60 60 :: rest.
Proof.
  apply (use_skill_taps_offset_rect 5 (Stub.bot 3 None) 2 3 (Some 1)
           (Stub.world ["attack"]));
    reflexivity.
Defined.

(** ** [use_master_skill] *)

Lemma exists_run im thr w :
  exists_ im thr w = (Ok (f_exists (screen w) im thr), w).
Proof. reflexivity. Qed.

(** The Order Change branch with both objects in range. *)
Lemma order_change_branch_run self (obj obj2 : Z) w x y wd h cd :
  buttons self !! "change" = Some (Rect x y wd h) ->
  buttons self !! "change_distance" = Some (Num cd) ->
  1 <= obj <= 3 ->
  4 <= obj2 <= 6 ->
  exists w',
    order_change_branch self (Some obj) (Some obj2) w = (Ok tt, w')
    /\ screen w' = screen w
    /\ feed w' = feed w
    /\ captured w' = captured w
    /\ trace w' =
       trace w
       ++ [Tap (x + cd * (obj - 1)) y wd h;
           Tap (x + cd * (obj - 1) + cd * (obj2 - obj)) y wd h;
           Log DEBUG "Chose master skill object ({}, {})." [AInt obj; AInt obj2];
           find_and_tap_event w "change" None;
           Log DEBUG "Order Change" []].
Proof.
  intros Hrect Hcd Ho Ho2. unfold order_change_branch.
  replace ((1 <=? obj) && (obj <=? 3) && ((4 <=? obj2) && (obj2 <=? 6)))
    with true by (symmetry; rewrite !andb_true_iff, !Z.leb_le; lia).
  rewrite (bind_ok _ _ _ _ _ (button_rect _ _ _ _ _ _ _ Hrect)).
  rewrite (bind_ok _ _ _ _ _ (distance_num _ _ _ _ Hcd)).
  rewrite (bind_ok _ _ _ _ _ (void_tap _ _ _ _ _)).
  rewrite (bind_ok _ _ _ _ _ (distance_num _ _ _ _ Hcd)).
  rewrite (bind_ok _ _ _ _ _ (void_tap _ _ _ _ _)).
  rewrite (bind_ok _ _ _ _ _ (logger_run _ _ _ _)).
  rewrite (bind_ok _ _ _ _ _ (void_find_and_tap _ _ _)).
  eexists. split; [reflexivity|]. simpl.
  repeat split. by rewrite <- !app_assoc.
Qed.

(** [use_master_skill] when the opening ends on the Order Change prompt
    and both objects are in range. *)
Lemma use_master_skill_order_change
    fuel self (skill obj obj2 : Z) w w2 x y wd h cd :
  buttons self !! "change" = Some (Rect x y wd h) ->
  buttons self !! "change_distance" = Some (Num cd) ->
  master_skill_select fuel self skill w = (Ok tt, w2) ->
  f_exists (screen w2) "choose_object" None = false ->
  f_exists (screen w2) "order_change" None = true ->
  1 <= obj <= 3 ->
  4 <= obj2 <= 6 ->
  exists w',
    use_master_skill fuel self skill (Some obj) (Some obj2) w = (Ok tt, w')
    /\ trace w' =
       trace w2
       ++ [Tap (x + cd * (obj - 1)) y wd h;
           Tap (x + cd * (obj - 1) + cd * (obj2 - obj)) y wd h;
           Log DEBUG "Chose master skill object ({}, {})." [AInt obj; AInt obj2];
           find_and_tap_event w2 "change" None;
           Log DEBUG "Order Change" [];
           Log DEBUG "Sleep {} seconds." [AInt 1]; Sleep 1].
Proof.
  intros Hrect Hcd Hsel Hco Hoc Ho Ho2. unfold use_master_skill.
  rewrite (bind_ok _ _ _ _ _ Hsel).
  rewrite (bind_ok _ _ _ _ _ (exists_run _ _ _)), Hco.
  destruct (order_change_branch_run self obj obj2 w2 x y wd h cd
              Hrect Hcd Ho Ho2) as (w3 & Hrun & _ & _ & _ & Htr).
  rewrite bind_assoc.
  rewrite (bind_ok _ _ _ _ _ (exists_run _ _ _)), Hoc. simpl when_.
  rewrite (bind_ok _ _ _ _ _ Hrun), wait_run.
  eexists. split; [reflexivity|].
  simpl. rewrite Htr. by rewrite <- !app_assoc.
Qed.

(** C6 (as amended). In the Order Change branch with 1 <= obj <= 3 and
    4 <= obj2 <= 6, the first tap is at x1 = change.x + change_distance *
    (obj - 1) and the second at x1 + change_distance * (obj2 - obj), on the
    same y, w and h.  The confirmation that follows is a find-and-tap of the
    'change' image on the cached frame: it taps the image where the matcher
    finds it, and when the matcher does not find it a warning is logged and
    no confirmation tap is issued. *)
Theorem order_change_second_tap_is_relative
    fuel self (skill obj obj2 : Z) w w2 x y wd h cd :
  buttons self !! "change" = Some (Rect x y wd h) ->
  buttons self !! "change_distance" = Some (Num cd) ->
  master_skill_select fuel self skill w = (Ok tt, w2) ->
  f_exists (screen w2) "choose_object" None = false ->
  f_exists (screen w2) "order_change" None = true ->
  1 <= obj <= 3 ->
  4 <= obj2 <= 6 ->
  exists w' x1 confirm,
    use_master_skill fuel self skill (Some obj) (Some obj2) w = (Ok tt, w')
    /\ x1 = x + cd * (obj - 1)
    /\ trace w' =
       trace w2
       ++ [Tap x1 y wd h;
           Tap (x1 + cd * (obj2 - obj)) y wd h;
           Log DEBUG "Chose master skill object ({}, {})." [AInt obj; AInt obj2];
           confirm;
           Log DEBUG "Order Change" [];
           Log DEBUG "Sleep {} seconds." [AInt 1]; Sleep 1]
    /\ (f_find (screen w2) "change" None = (-1, -1) ->
        confirm = Log WARNING "Failed to find image {} on screen." [AStr "change"])
    /\ (f_find (screen w2) "change" None <> (-1, -1) ->
        confirm = Tap (f_find (screen w2) "change" None).1
                      (f_find (screen w2) "change" None).2
                      (tm_size w2 "change").1 (tm_size w2 "change").2).
Proof.
  intros Hrect Hcd Hsel Hco Hoc Ho Ho2.
  destruct (use_master_skill_order_change fuel self skill obj obj2 w w2
              x y wd h cd Hrect Hcd Hsel Hco Hoc Ho Ho2) as (w' & Hrun & Htr).
  exists w', (x + cd * (obj - 1)), (find_and_tap_event w2 "change" None).
  split; [done|]. split; [done|]. split; [done|].
  unfold find_and_tap_event.
  destruct (f_find (screen w2) "change" None) as [fx fy].
  destruct (tm_size w2 "change") as [fw fh].
  split; intros Hf; case_decide; done.
Qed.

(** C10. In the Order Change branch with 1 <= obj <= 3 and
    4 <= obj2 <= 6, the second tap rectangle is
    (change.x + change_distance * (obj2 - 1), change.y, change.w, change.h):
    the offset accumulated over the two taps,
    change_distance * (obj - 1) + change_distance * (obj2 - obj),
    is the absolute offset of slot obj2, so the second rectangle does not
    depend on obj. *)
Theorem order_change_second_tap_is_slot_obj2
    fuel self (skill obj obj2 : Z) w w2 x y wd h cd :
  buttons self !! "change" = Some (Rect x y wd h) ->
  buttons self !! "change_distance" = Some (Num cd) ->
  master_skill_select fuel self skill w = (Ok tt, w2) ->
  f_exists (screen w2) "choose_object" None = false ->
  f_exists (screen w2) "order_change" None = true ->
  1 <= obj <= 3 ->
  4 <= obj2 <= 6 ->
  cd * (obj - 1) + cd * (obj2 - obj) = cd * (obj2 - 1)
  /\ exists w' first rest,
       use_master_skill fuel self skill (Some obj) (Some obj2) w = (Ok tt, w')
       /\ trace w' =
          trace w2 ++ first :: Tap (x + cd * (obj2 - 1)) y wd h :: rest.
Proof.
  intros Hrect Hcd Hsel Hco Hoc Ho Ho2.
  split; [lia|].
  destruct (use_master_skill_order_change fuel self skill obj obj2 w w2
              x y wd h cd Hrect Hcd Hsel Hco Hoc Ho Ho2) as (w' & Hrun & Htr).
  do 3 eexists. split; [exact Hrun|].
  rewrite Htr.
  replace (x + cd * (obj2 - 1)) with (x + cd * (obj - 1) + cd * (obj2 - obj))
    by lia.
  reflexivity.
Qed.

(** C9. When the opening of [use_master_skill] ends on an object prompt
    and the needed argument is missing or out of range, the call logs one
    ERROR record, waits, and returns normally: after the opening the trace
    gains that record and the closing sleep only, so no tap is issued for
    the unresolved selection and nothing is raised. *)
Theorem use_master_skill_skips_unresolved_selection
    fuel self (skill : Z) (obj obj2 : option Z) w w2 :
  master_skill_select fuel self skill w = (Ok tt, w2) ->
  unresolved_selection w2 obj obj2 ->
  exists w' msg,
    use_master_skill fuel self skill obj obj2 w = (Ok tt, w')
    /\ trace w' =
       trace w2
       ++ [Log ERROR msg []; Log DEBUG "Sleep {} seconds." [AInt 1]; Sleep 1].
Proof.
  intros Hsel Hun. unfold use_master_skill.
  rewrite (bind_ok _ _ _ _ _ Hsel).
  rewrite (bind_ok _ _ _ _ _ (exists_run _ _ _)).
  destruct Hun as [[-> Harg] | (-> & Hoc & Harg)].
  - assert (choose_object_branch self obj w2
            = (Ok tt, emit (Log ERROR
                 (match obj with
                  | None => "Must choose a master skill object."
                  | Some _ => "Invalid master skill object."
                  end) []) w2)) as Hbr.
    { unfold choose_object_branch.
      destruct Harg as [-> | (o & -> & Hout)]; [done|].
      replace ((1 <=? o) && (o <=? 3)) with false; [done|].
      symmetry. rewrite andb_false_iff, !Z.leb_gt. lia. }
    rewrite (bind_ok _ _ _ _ _ Hbr), wait_run.
    do 2 eexists. split; [reflexivity|]. simpl. by rewrite <- !app_assoc.
  - rewrite bind_assoc.
    rewrite (bind_ok _ _ _ _ _ (exists_run _ _ _)), Hoc. simpl when_.
    assert (order_change_branch self obj obj2 w2
            = (Ok tt, emit (Log ERROR
                 (match obj, obj2 with
                  | Some _, Some _ => "Invalid master skill object."
                  | _, _ => "Must choose two objects for Order Change."
                  end) []) w2)) as Hbr.
    { unfold order_change_branch.
      destruct Harg as [-> | [-> | (o & o2 & -> & -> & Hout)]];
        [done | by destruct obj |].
      replace ((1 <=? o) && (o <=? 3) && ((4 <=? o2) && (o2 <=? 6)))
        with false; [done|].
      symmetry. rewrite !andb_false_iff, !Z.leb_gt. lia. }
    rewrite (bind_ok _ _ _ _ _ Hbr), wait_run.
    do 2 eexists. split; [reflexivity|]. simpl. by rewrite <- !app_assoc.
Qed.

Lemma order_change_second_tap_is_relative_witness :
  exists w' x1 confirm,
    use_master_skill 5 (Stub.bot 3 None) 2 (Some 2) (Some 5)
      (Stub.world ["attack"; "order_change"]) = (Ok tt, w')
    /\ x1 = 110 + 200 * (2 - 1)
    /\ trace w' =
       trace order_change_world
       ++ [Tap x1 300 100 100;
           Tap (x1 + 200 * (5 - 2)) 300 100 100;
           Log DEBUG "Chose master skill object ({}, {})." [AInt 2; AInt 5];
           confirm;
           Log DEBUG "Order Change" [];
           Log DEBUG "Sleep {} seconds." [AInt 1]; Sleep 1]
    /\ (f_find (screen order_change_world) "change" None = (-1, -1) ->
        confirm = Log WARNING "Failed to find image {} on screen." [AStr "change"])
    /\ (f_find (screen order_change_world) "change" None <> (-1, -1) ->
        confirm = Tap (f_find (screen order_change_world) "change" None).1
                      (f_find (screen order_change_world) "change" None).2
                      (tm_size order_change_world "change").1
                      (tm_size order_change_world "change").2).
Proof.
  apply (order_change_second_tap_is_relative 5 (Stub.bot 3 None) 2 2 5
           (Stub.world ["attack"; "order_change"]) order_change_world);
    first [reflexivity | lia].
Defined.

(** C6 (as stated) fails on its last part: with obj = 2 and obj2 = 5 on a
    screen that shows the Order Change prompt but on which the matcher does
    not find the 'change' image, the two slot taps are issued (the second
    600 = 200 * (5 - 2) to the right of the first) and are followed by a
    warning, not by a confirmation tap. *)
Lemma order_change_confirmation_tap_not_issued :
  1 <= 2 <= 3
  /\ 4 <= 5 <= 6
  /\ (use_master_skill 5 (Stub.bot 3 None) 2 (Some 2) (Some 5)
        (Stub.world ["attack"; "order_change"])).1 = Ok tt
  /\ trace (use_master_skill 5 (Stub.bot 3 None) 2 (Some 2) (Some 5)
              (Stub.world ["attack"; "order_change"])).2
     = [Log DEBUG "Wait until image '{}' appears." [AStr "attack"];
        Tap 1180 300 50 50;
        Log DEBUG "Sleep {} seconds." [AInt 1]; Sleep 1;
        Tap 980 300 50 50;
        Log DEBUG "Used master skill {}" [AInt 2];
        Log DEBUG "Sleep {} seconds." [AInt 1]; Sleep 1;
        Tap 310 300 100 100;
        Tap 910 300 100 100;
        Log DEBUG "Chose master skill object ({}, {})." [AInt 2; AInt 5];
        Log WARNING "Failed to find image {} on screen." [AStr "change"];
        Log DEBUG "Order Change" [];
        Log DEBUG "Sleep {} seconds." [AInt 1]; Sleep 1].
Proof.
  split; [lia|]. split; [lia|]. split; vm_compute; reflexivity.
Qed.

Lemma order_change_second_tap_is_slot_obj2_witness :
  200 * (2 - 1) + 200 * (5 - 2) = 200 * (5 - 1)
  /\ exists w' first rest,
       use_master_skill 5 (Stub.bot 3 None) 2 (Some 2) (Some 5)
         (Stub.world ["attack"; "order_change"]) = (Ok tt, w')
       /\ trace w' =
          trace order_change_world
          ++ first :: Tap (110 + 200 * (5 - 1)) 300 100 100 :: rest.
Proof.
  apply (order_change_second_tap_is_slot_obj2 5 (Stub.bot 3 None) 2 2 5
           (Stub.world ["attack"; "order_change"]) order_change_world);
    first [reflexivity | lia].
Defined.

Lemma use_master_skill_skips_unresolved_selection_witness :
  exists w' msg,
    use_master_skill 5 (Stub.bot 3 None) 2 (Some 4) None
      (Stub.world ["attack"; "choose_object"]) = (Ok tt, w')
    /\ trace w' =
       trace choose_object_world
       ++ [Log ERROR msg []; Log DEBUG "Sleep {} seconds." [AInt 1]; Sleep 1].
Proof.
  apply (use_master_skill_skips_unresolved_selection 5 (Stub.bot 3 None) 2
           (Some 4) None (Stub.world ["attack"; "choose_object"])
           choose_object_world).
  - reflexivity.
  - left. split; [reflexivity|]. right. exists 4. split; [reflexivity|lia].
Defined.

(** ** [run] *)

Lemma truediv_zero a w : truediv a 0 w = (Raise ZeroDivisionError, w).
Proof. reflexivity. Qed.

(** When the initial [__enter_battle] reports failure, [run] logs 'Quit...',
    skips the battle and the loop, and reaches the summary with count 0,
    where the average [(endtime - starttime) / count] raises. *)
Lemma run_after_failed_enter fuel self max_loops w w1 :
  enter_battle fuel self w = (Ok false, w1) ->
  run fuel self max_loops w
  = (Raise ZeroDivisionError, emit (Log INFO "Quit..." []) w1).
Proof.
  intros Hent. unfold run.
  rewrite (bind_ok time _ w (now w) w eq_refl).
  rewrite (bind_ok time _ w (now w) w eq_refl).
  rewrite (bind_ok _ _ _ _ _ Hent). simpl negb. cbv iota.
  rewrite bind_assoc.
  rewrite (bind_ok _ _ _ _ _ (logger_run _ _ _ _)).
  set (w2 := emit (Log INFO "Quit..." []) w1).
  rewrite (bind_ok (ret 1) _ w2 1 w2 eq_refl).
  change (1 =? 0) with false. cbv iota.
  rewrite (bind_ok (ret 0) _ w2 0 w2 eq_refl).
  assert (run_loop (Z.to_nat max_loops) fuel self max_loops 1 0 w2 = (Ok 0, w2))
    as Hloop.
  { destruct (Z.to_nat max_loops); simpl;
      change (1 =? 0) with false; by rewrite andb_false_r. }
  rewrite (bind_ok _ _ _ _ _ Hloop).
  rewrite (bind_ok time _ w2 (now w2) w2 eq_refl).
  by rewrite (bind_raise _ _ _ _ _ (truediv_zero _ w2)).
Qed.

(** C2 (the code departs from it). On a screen that shows the menu, the
    quest and the insufficient-AP prompt, a bot with an empty AP strategy
    fails to enter; [run] then stops without playing, but instead of
    reporting zero battles and returning it raises ZeroDivisionError while
    computing the average time, for every [max_loops]. *)
Theorem run_raises_when_enter_fails (max_loops : Z) :
  (enter_battle 5 (Stub.bot 3 (Some []))
     (Stub.world ["menu"; "quest"; "ap_regen"])).1 = Ok false
  /\ (run 5 (Stub.bot 3 (Some [])) max_loops
        (Stub.world ["menu"; "quest"; "ap_regen"])).1 = Raise ZeroDivisionError
  /\ trace (run 5 (Stub.bot 3 (Some [])) max_loops
              (Stub.world ["menu"; "quest"; "ap_regen"])).2
     = [Log INFO "Trying to enter the battle" [];
        Log DEBUG "Wait until image '{}' appears." [AStr "menu"];
        Tap 100 200 40 30;
        Log DEBUG "Sleep {} seconds." [AInt 1]; Sleep 1;
        Log INFO "Quit..." []].
Proof.
  split; [vm_compute; reflexivity|].
  rewrite (run_after_failed_enter 5 (Stub.bot 3 (Some [])) max_loops
             (Stub.world ["menu"; "quest"; "ap_regen"])
             (enter_battle 5 (Stub.bot 3 (Some []))
                (Stub.world ["menu"; "quest"; "ap_regen"])).2)
    by (vm_compute; reflexivity).
  split; [reflexivity|]. vm_compute. reflexivity.
Qed.

(** * Further properties *)

(** ** Running the monad, continued *)

Lemma bind_inv_ok {A B} (m : M A) (k : A -> M B) w b w' :
  bind m k w = (Ok b, w') ->
  exists a w1, m w = (Ok a, w1) /\ k a w1 = (Ok b, w').
Proof.
  unfold bind. destruct (m w) as [[a|e|] w1]; [eauto | done | done].
Qed.

Lemma find_and_tap_run im thr w :
  exists b, find_and_tap im thr w = (Ok b, emit (find_and_tap_event w im thr) w).
Proof.
  unfold find_and_tap, find_and_tap_event, bind, tm_find. simpl.
  destruct (f_find (screen w) im thr) as [x y].
  destruct (decide ((x, y) = (-1, -1))); [by eexists|].
  unfold tm_getsize. destruct (tm_size w im). by eexists.
Qed.

(** ** [__wait_until] *)

Lemma poll_body_run w :
  exists w',
    poll_body w = (Ok tt, w')
    /\ feed w' = feed w
    /\ captured w' = S (captured w)
    /\ screen w' = feed w (captured w)
    /\ now w' = now w + 1.
Proof.
  unfold poll_body. rewrite (bind_ok _ _ _ _ _ (wait_run _ _)).
  rewrite (bind_ok _ _ _ _ _ (exists_run _ _ _)).
  match goal with |- context [if ?c then _ else _] => destruct c end.
  - match goal with
    | |- context [bind (find_and_tap ?im ?thr) _ ?w0] =>
        destruct (find_and_tap_run im thr w0) as [b Hb]
    end.
    rewrite (bind_ok _ _ _ _ _ Hb). eexists. split; [reflexivity|]. done.
  - eexists. split; [reflexivity|]. done.
Qed.

Lemma wait_until_loop_unfold fuel im w :
  wait_until_loop (S fuel) im w
  = if f_exists (screen w) im None then (Ok tt, w)
    else bind poll_body (fun _ => wait_until_loop fuel im) w.
Proof.
  simpl. rewrite (bind_ok _ _ _ _ _ (exists_run _ _ _)).
  destruct (f_exists (screen w) im None); [done|]. simpl negb. cbv iota.
  unfold poll_body. rewrite !bind_assoc.
  apply bind_ext; intros [] w1 _. cbv beta. rewrite !bind_assoc.
  apply bind_ext; intros r w2 _. reflexivity.
Qed.

Lemma wait_until_loop_zero im w :
  wait_until_loop 0 im w
  = if f_exists (screen w) im None then (Ok tt, w) else (OutOfFuel, w).
Proof.
  simpl. rewrite (bind_ok _ _ _ _ _ (exists_run _ _ _)).
  by destruct (f_exists (screen w) im None).
Qed.

Lemma wait_until_loop_shown fuel im w w' :
  wait_until_loop fuel im w = (Ok tt, w') ->
  f_exists (screen w') im None = true.
Proof.
  revert w. induction fuel as [|fuel IH]; intros w.
  - rewrite wait_until_loop_zero.
    destruct (f_exists (screen w) im None) eqn:E; [|done]. by intros [= <-].
  - rewrite wait_until_loop_unfold.
    destruct (f_exists (screen w) im None) eqn:E; [by intros [= <-]|].
    intros H. apply bind_inv_ok in H as ([] & w1 & _ & H). eauto.
Qed.

(** X1. Whenever [__wait_until] returns, the image it waited for is
    matched on the frame the matcher has cached at that moment. *)
Theorem wait_until_returns_on_match fuel im w w' :
  wait_until fuel im w = (Ok tt, w') ->
  f_exists (screen w') im None = true.
Proof.
  unfold wait_until. intros H.
  apply bind_inv_ok in H as ([] & w1 & _ & H).
  apply bind_inv_ok in H as ([] & w2 & _ & H).
  by apply wait_until_loop_shown in H.
Qed.

Lemma wait_until_returns_on_match_witness :
  f_exists
    (screen (refresh (emit (Log DEBUG "Wait until image '{}' appears."
                                [AStr "attack"]) (Stub.world ["attack"]))))
    "attack" None = true.
Proof.
  apply (wait_until_returns_on_match 5 "attack" (Stub.world ["attack"])).
  reflexivity.
Defined.

Lemma wait_until_loop_appears (k : nat) :
  forall fuel im w,
    (k <= fuel)%nat ->
    (forall j, (j < k)%nat -> f_exists (view w j) im None = false) ->
    f_exists (view w k) im None = true ->
    exists w',
      wait_until_loop fuel im w = (Ok tt, w')
      /\ screen w' = view w k
      /\ captured w' = (captured w + k)%nat
      /\ now w' = now w + Z.of_nat k
      /\ feed w' = feed w.
Proof.
  induction k as [|k IH]; intros fuel im w Hfuel Hnot Hshown.
  - simpl in Hshown. exists w.
    split; [|by rewrite Nat.add_0_r, Z.add_0_r].
    destruct fuel; [rewrite wait_until_loop_zero | rewrite wait_until_loop_unfold];
      by rewrite Hshown.
  - destruct fuel as [|fuel]; [lia|].
    rewrite wait_until_loop_unfold.
    rewrite (Hnot 0%nat ltac:(lia) : f_exists (screen w) im None = false).
    destruct (poll_body_run w) as (w1 & Hbody & Hfeed & Hcap & Hscr & Hnow).
    rewrite (bind_ok _ _ _ _ _ Hbody).
    assert (forall j, view w1 j = view w (S j)) as Hview.
    { intros [|j]; simpl; rewrite ?Hfeed, ?Hcap, ?Hscr; f_equal; lia. }
    destruct (IH fuel im w1) as (w' & Hrun & Hs & Hc & Hn & Hf).
    + lia.
    + intros j Hj. rewrite Hview. apply Hnot. lia.
    + by rewrite Hview.
    + exists w'. split; [done|].
      rewrite Hs, Hc, Hn, Hf, Hview, Hcap, Hnow, Hfeed.
      repeat split; lia.
Qed.

(** X2. If the image is first matched on the k-th frame the device will
    deliver from now on (k counted from 0) and the fuel covers k polls,
    [__wait_until] returns normally after exactly k one-second waits: the
    clock has advanced by k seconds, k + 1 frames have been captured, and
    the cached frame is the one that shows the image.  Reconnect prompts on
    the way do not change this. *)
Theorem wait_until_returns_when_image_appears (k fuel : nat) im w :
  (k <= fuel)%nat ->
  (forall j, (j < k)%nat -> f_exists (feed w (captured w + j)%nat) im None = false) ->
  f_exists (feed w (captured w + k)%nat) im None = true ->
  exists w',
    wait_until fuel im w = (Ok tt, w')
    /\ screen w' = feed w (captured w + k)%nat
    /\ captured w' = (captured w + k + 1)%nat
    /\ now w' = now w + Z.of_nat k
    /\ feed w' = feed w.
Proof.
  intros Hfuel Hnot Hshown. unfold wait_until.
  rewrite (bind_ok _ _ _ _ _ (logger_run _ _ _ _)).
  set (w0 := emit _ w).
  rewrite (bind_ok tm_update_screen _ w0 tt (refresh w0) eq_refl).
  assert (forall j, view (refresh w0) j = feed w (captured w + j)%nat) as Hview.
  { intros [|j]; simpl; f_equal; lia. }
  destruct (wait_until_loop_appears k fuel im (refresh w0))
    as (w' & Hrun & Hs & Hc & Hn & Hf).
  - done.
  - intros j Hj. rewrite Hview. by apply Hnot.
  - by rewrite Hview.
  - exists w'. split; [done|]. rewrite Hs, Hc, Hn, Hf, Hview. simpl.
    repeat split; lia.
Qed.

Lemma wait_until_loop_never fuel :
  forall im w,
    (forall j, f_exists (view w j) im None = false) ->
    (wait_until_loop fuel im w).1 = OutOfFuel.
Proof.
  induction fuel as [|fuel IH]; intros im w Hnot.
  - rewrite wait_until_loop_zero.
    by rewrite (Hnot 0%nat : f_exists (screen w) im None = false).
  - rewrite wait_until_loop_unfold.
    rewrite (Hnot 0%nat : f_exists (screen w) im None = false).
    destruct (poll_body_run w) as (w1 & Hbody & Hfeed & Hcap & Hscr & Hnow).
    rewrite (bind_ok _ _ _ _ _ Hbody). apply IH.
    intros j. specialize (Hnot (S j)).
    destruct j as [|j]; simpl in *; rewrite ?Hfeed, ?Hcap, ?Hscr.
    + by rewrite Nat.add_0_r in Hnot.
    + by replace (S (captured w) + j)%nat with (captured w + S j)%nat by lia.
Qed.

(** X3. [__wait_until] has no bound of its own: if no frame the device
    will ever deliver matches the image, no amount of fuel makes it return;
    every run ends by exhausting the fuel (the source loops forever). *)
Theorem wait_until_never_returns_without_match fuel im w :
  (forall j, f_exists (feed w (captured w + j)%nat) im None = false) ->
  (wait_until fuel im w).1 = OutOfFuel.
Proof.
  intros Hnot. unfold wait_until.
  rewrite (bind_ok _ _ _ _ _ (logger_run _ _ _ _)).
  set (w0 := emit _ w).
  rewrite (bind_ok tm_update_screen _ w0 tt (refresh w0) eq_refl).
  apply wait_until_loop_never. intros [|j]; simpl.
  - specialize (Hnot 0%nat). by rewrite Nat.add_0_r in Hnot.
  - specialize (Hnot (S j)). by rewrite Nat.add_succ_r in Hnot.
Qed.

Lemma wait_until_returns_when_image_appears_witness :
  exists w',
    wait_until 5 "attack" (late_world 2 ["attack"]) = (Ok tt, w')
    /\ screen w' = feed (late_world 2 ["attack"]) (0 + 2)%nat
    /\ captured w' = (0 + 2 + 1)%nat
    /\ now w' = 0 + Z.of_nat 2
    /\ feed w' = feed (late_world 2 ["attack"]).
Proof.
  apply (wait_until_returns_when_image_appears 2 5 "attack"
           (late_world 2 ["attack"])).
  - lia.
  - intros [|[|j]] Hj; [reflexivity | reflexivity | lia].
  - reflexivity.
Defined.

Lemma wait_until_never_returns_without_match_witness :
  (wait_until 5 "attack" (Stub.world ["menu"])).1 = OutOfFuel.
Proof.
  apply (wait_until_never_returns_without_match 5 "attack" (Stub.world ["menu"])).
  intros j. reflexivity.
Defined.

(** ** [__get_current_stage] *)

Lemma best_stage_loop_spec self w (c : nat) :
  forall (a : Z) (p : Q) (s : Z),
    1 <= a ->
    (s = -1 /\ p = 8 # 10
     /\ forall k, 1 <= k < a -> (stage_prob self w k <= 8 # 10)%Q)
    \/ (1 <= s < a /\ p = stage_prob self w s
        /\ (8 # 10 < stage_prob self w s)%Q
        /\ forall k, 1 <= k < a ->
                     (stage_prob self w k <= stage_prob self w s)%Q
                     /\ (k < s -> (stage_prob self w k < stage_prob self w s)%Q)) ->
    exists p' s',
      best_stage_loop self (seqZ a (Z.of_nat c)) p s w = (Ok (p', s'), w)
      /\ ((s' = -1
           /\ forall k, 1 <= k < a + Z.of_nat c ->
                        (stage_prob self w k <= 8 # 10)%Q)
          \/ (1 <= s' < a + Z.of_nat c
              /\ (8 # 10 < stage_prob self w s')%Q
              /\ forall k, 1 <= k < a + Z.of_nat c ->
                           (stage_prob self w k <= stage_prob self w s')%Q
                           /\ (k < s' ->
                               (stage_prob self w k < stage_prob self w s')%Q))).
Proof.
  induction c as [|c IH]; intros a p s Ha Hinv.
  - rewrite seqZ_nil by lia. simpl. exists p, s. split; [done|].
    rewrite Z.add_0_r. destruct Hinv as [(-> & _ & H) | (Hs & _ & Hgt & H)];
      [left | right]; done.
  - rewrite seqZ_cons by lia. simpl.
    replace (Z.pred (Z.of_nat (S c))) with (Z.of_nat c) by lia.
    unfold bind at 1. unfold tm_probability at 1.
    fold (stage_prob self w a).
    replace (a + Z.of_nat (S c)) with (Z.succ a + Z.of_nat c) by lia.
    destruct (Qle_bool (stage_prob self w a) p) eqn:Hcmp; simpl negb; cbv iota.
    + apply Qle_bool_iff in Hcmp. apply IH; [lia|].
      destruct Hinv as [(-> & -> & H) | (Hs & -> & Hgt & H)]; [left | right].
      * split; [done|]. split; [done|]. intros k Hk.
        destruct (decide (k = a)) as [->|]; [done|]. apply H. lia.
      * split; [lia|]. split; [done|]. split; [done|]. intros k Hk.
        destruct (decide (k = a)) as [->|]; [split; [done|lia]|]. apply H. lia.
    + assert (p < stage_prob self w a)%Q as Hlt.
      { apply Qnot_le_lt. intros Hle. apply Qle_bool_iff in Hle. congruence. }
      apply IH; [lia|]. right.
      split; [lia|]. split; [done|].
      destruct Hinv as [(-> & -> & H) | (Hs & -> & Hgt & H)].
      * split; [done|]. intros k Hk.
        destruct (decide (k = a)) as [->|]; [split; [apply Qle_refl|lia]|].
        assert (stage_prob self w k < stage_prob self w a)%Q
          by (eapply Qle_lt_trans; [apply H; lia | done]).
        split; [by apply Qlt_le_weak | done].
      * split; [by eapply Qlt_trans|]. intros k Hk.
        destruct (decide (k = a)) as [->|]; [split; [apply Qle_refl|lia]|].
        assert (stage_prob self w k < stage_prob self w a)%Q
          by (eapply Qle_lt_trans; [apply H; lia | done]).
        split; [by apply Qlt_le_weak | done].
Qed.

(** X4. Once the attack control is ready, [__get_current_stage] returns
    the stage whose indicator has the highest matcher probability among
    those strictly above 0.8, the lowest-numbered such stage when several
    tie; it returns -1 exactly when no indicator of a stage in
    [1, stage_count] is above 0.8.  It never raises. *)
Theorem get_current_stage_is_first_best fuel self w w1 :
  wait_until fuel "attack" w = (Ok tt, w1) ->
  exists s w',
    get_current_stage fuel self w = (Ok s, w')
    /\ ((s = -1
         /\ forall k, 1 <= k <= stage_count self ->
                      (stage_prob self w1 k <= 8 # 10)%Q)
        \/ (1 <= s <= stage_count self
            /\ (8 # 10 < stage_prob self w1 s)%Q
            /\ forall k, 1 <= k <= stage_count self ->
                         (stage_prob self w1 k <= stage_prob self w1 s)%Q
                         /\ (k < s ->
                             (stage_prob self w1 k < stage_prob self w1 s)%Q))).
Proof.
  intros Hwait. unfold get_current_stage.
  rewrite (bind_ok _ _ _ _ _ Hwait).
  destruct (best_stage_loop_spec self w1 (Z.to_nat (stage_count self)) 1
              (8 # 10) (-1) ltac:(lia))
    as (p' & s' & Hrun & Hspec).
  { left. split; [done|]. split; [done|]. intros k Hk. lia. }
  destruct (decide (stage_count self <= 0)) as [Hn|Hn].
  - rewrite seqZ_nil by done. simpl.
    do 2 eexists. split; [reflexivity|]. left. split; [done|]. intros k Hk. lia.
  - rewrite Z2Nat.id in Hrun, Hspec by lia.
    rewrite (bind_ok _ _ _ _ _ Hrun).
    exists s'.
    exists (if s' =? -1
            then emit (Log ERROR "Failed to get current stage." []) w1
            else emit (Log DEBUG "Got current stage: {}" [AInt s']) w1).
    split.
    + simpl. destruct (s' =? -1); reflexivity.
    + destruct Hspec as [[-> H] | (Hs & Hgt & H)]; [left | right].
      * split; [done|]. intros k Hk. apply H. lia.
      * split; [lia|]. split; [done|]. intros k Hk. apply H. lia.
Qed.

Lemma get_current_stage_is_first_best_witness :
  exists s w',
    get_current_stage 5 (Stub.bot 3 None) (Stub.world ["attack"; "2_3"])
    = (Ok s, w')
    /\ ((s = -1
         /\ forall k, 1 <= k <= 3 ->
              (stage_prob (Stub.bot 3 None)
                 (refresh (emit (Log DEBUG "Wait until image '{}' appears."
                                     [AStr "attack"])
                                (Stub.world ["attack"; "2_3"]))) k <= 8 # 10)%Q)
        \/ (1 <= s <= 3
            /\ (8 # 10 < stage_prob (Stub.bot 3 None)
                  (refresh (emit (Log DEBUG "Wait until image '{}' appears."
                                      [AStr "attack"])
                                 (Stub.world ["attack"; "2_3"]))) s)%Q
            /\ forall k, 1 <= k <= 3 ->
                 (stage_prob (Stub.bot 3 None)
                    (refresh (emit (Log DEBUG "Wait until image '{}' appears."
                                        [AStr "attack"])
                                   (Stub.world ["attack"; "2_3"]))) k
                  <= stage_prob (Stub.bot 3 None)
                       (refresh (emit (Log DEBUG "Wait until image '{}' appears."
                                           [AStr "attack"])
                                      (Stub.world ["attack"; "2_3"]))) s)%Q
                 /\ (k < s ->
                     (stage_prob (Stub.bot 3 None)
                        (refresh (emit (Log DEBUG "Wait until image '{}' appears."
                                            [AStr "attack"])
                                       (Stub.world ["attack"; "2_3"]))) k
                      < stage_prob (Stub.bot 3 None)
                          (refresh (emit (Log DEBUG "Wait until image '{}' appears."
                                              [AStr "attack"])
                                         (Stub.world ["attack"; "2_3"]))) s)%Q))).
Proof.
  apply (get_current_stage_is_first_best 5 (Stub.bot 3 None)
           (Stub.world ["attack"; "2_3"])).
  reflexivity.
Defined.

(** On a screen that shows the indicator of stage 2 of 3, the current
    stage is 2; on one that shows no indicator it is -1. *)
Example get_current_stage_stub :
  (get_current_stage 5 (Stub.bot 3 None) (Stub.world ["attack"; "2_3"])).1 = Ok 2
  /\ (get_current_stage 5 (Stub.bot 3 None) (Stub.world ["attack"])).1 = Ok (-1).
Proof. split; vm_compute; reflexivity. Qed.

(** ** [__swipe] *)

Lemma swipe_run self track t x1 y1 x2 y2 w :
  buttons self !! "swipe" = Some (Tracks t) ->
  t !! track = Some (x1, y1, x2, y2) ->
  swipe self track w
  = (Ok tt,
     emit (Swipe (x1 + jitter w 0) (y1 + jitter w 1)
                 (x2 + jitter w 2) (y2 + jitter w 3))
          (draw (draw (draw (draw w))))).
Proof.
  intros Hs Ht. unfold swipe, buttons_get, bind. rewrite Hs. simpl. rewrite Ht.
  unfold jitter. simpl.
  rewrite Nat.add_0_r.
  replace (drawn w + 1)%nat with (S (drawn w)) by lia.
  replace (drawn w + 2)%nat with (S (S (drawn w))) by lia.
  replace (drawn w + 3)%nat with (S (S (S (drawn w)))) by lia.
  reflexivity.
Qed.

Lemma jitter_bound w i : -5 <= jitter w i <= 5.
Proof.
  unfold jitter.
  pose proof (Z.mod_pos_bound (rng w (drawn w + i)%nat) 11 ltac:(lia)). lia.
Qed.

(** X5. A swipe along a configured track issues exactly one swipe, each of
    whose four coordinates lies within 5 pixels of the configured one; it
    consumes four random draws and touches neither the clock nor the cached
    frame. *)
Theorem swipe_stays_within_five_pixels self track t x1 y1 x2 y2 w :
  buttons self !! "swipe" = Some (Tracks t) ->
  t !! track = Some (x1, y1, x2, y2) ->
  exists a b c d w',
    swipe self track w = (Ok tt, w')
    /\ trace w' = trace w ++ [Swipe a b c d]
    /\ x1 - 5 <= a <= x1 + 5
    /\ y1 - 5 <= b <= y1 + 5
    /\ x2 - 5 <= c <= x2 + 5
    /\ y2 - 5 <= d <= y2 + 5
    /\ drawn w' = (drawn w + 4)%nat
    /\ now w' = now w
    /\ screen w' = screen w
    /\ captured w' = captured w.
Proof.
  intros Hs Ht. do 5 eexists.
  split; [by apply (swipe_run self track t x1 y1 x2 y2)|].
  split; [reflexivity|].
  pose proof (jitter_bound w 0). pose proof (jitter_bound w 1).
  pose proof (jitter_bound w 2). pose proof (jitter_bound w 3).
  simpl. repeat split; lia.
Qed.

Lemma swipe_stays_within_five_pixels_witness :
  exists a b c d w',
    swipe (Stub.bot 3 None) "friend" (Stub.world []) = (Ok tt, w')
    /\ trace w' = trace (Stub.world []) ++ [Swipe a b c d]
    /\ 640 - 5 <= a <= 640 + 5
    /\ 600 - 5 <= b <= 600 + 5
    /\ 640 - 5 <= c <= 640 + 5
    /\ 300 - 5 <= d <= 300 + 5
    /\ drawn w' = (drawn (Stub.world []) + 4)%nat
    /\ now w' = now (Stub.world [])
    /\ screen w' = screen (Stub.world [])
    /\ captured w' = captured (Stub.world []).
Proof.
  apply (swipe_stays_within_five_pixels (Stub.bot 3 None) "friend"
           (list_to_map [("friend", (640, 600, 640, 300));
                         ("quest", (900, 500, 900, 300))]));
    reflexivity.
Defined.

(** ** [__find_friend] *)

Lemma swipes_app t es : swipes (t ++ es) = (swipes t + swipes es)%nat.
Proof. unfold swipes. by rewrite List.filter_app, length_app. Qed.

Lemma scan_friends_spec self w (c : nat) :
  forall a : nat,
    exists r,
      scan_friends self (seq a c) w = (Ok r, w)
      /\ match r with
         | None =>
             forall fid, (a <= fid < a + c)%nat ->
                         friend_shown self (screen w) fid = false
         | Some im =>
             exists fid,
               im = friend_image fid
               /\ (a <= fid < a + c)%nat
               /\ friend_shown self (screen w) fid = true
               /\ forall j, (a <= j < fid)%nat ->
                            friend_shown self (screen w) j = false
         end.
Proof.
  induction c as [|c IH]; intros a; simpl.
  - exists None. split; [done|]. intros fid Hfid. lia.
  - rewrite (bind_ok _ _ _ _ _ (exists_run _ _ _)).
    fold (friend_shown self (screen w) a).
    destruct (friend_shown self (screen w) a) eqn:Ha.
    + exists (Some (friend_image a)). split; [done|].
      exists a. repeat split; [lia | lia | done |]. intros j Hj. lia.
    + destruct (IH (S a)) as (r & Hrun & Hr). exists r. split; [done|].
      destruct r as [im|].
      * destruct Hr as (fid & -> & Hfid & Hshown & Hfirst).
        exists fid. repeat split; [lia | lia | done |].
        intros j Hj. destruct (decide (j = a)) as [->|]; [done|].
        apply Hfirst. lia.
      * intros fid Hfid. destruct (decide (fid = a)) as [->|]; [done|].
        apply Hr. lia.
Qed.

Lemma poll_friends_result self (polls : nat) :
  forall w im w',
    poll_friends self polls w = (Ok im, w') ->
    im = ""
    \/ exists fid,
         im = friend_image fid
         /\ (fid < friend_count self)%nat
         /\ friend_shown self (screen w') fid = true
         /\ forall j, (j < fid)%nat -> friend_shown self (screen w') j = false.
Proof.
  induction polls as [|polls IH]; intros w im w'; simpl.
  - intros [= <- _]. by left.
  - rewrite (bind_ok _ _ _ _ _ (wait_run _ _)).
    match goal with |- context [bind (scan_friends _ _) _ ?w0] => set (w1 := w0) end.
    destruct (scan_friends_spec self w1 (friend_count self) 0) as (r & Hrun & Hr).
    rewrite (bind_ok _ _ _ _ _ Hrun).
    destruct r as [im'|].
    + intros [= <- <-]. right.
      destruct Hr as (fid & -> & Hfid & Hshown & Hfirst).
      exists fid. repeat split; [lia | done |]. intros j Hj. apply Hfirst. lia.
    + intros H. apply bind_inv_ok in H as ([] & w2 & _ & H). eauto.
Qed.

(** X6. Whatever [__find_friend] returns is either the empty string or
    the image name of a roster entry below [friend_count] that is matched,
    at the bot's threshold, on the frame cached at that moment, and no
    entry before it in the roster is matched on that frame: the first match
    wins, not the best. *)
Theorem find_friend_returns_first_match fuel self w im w' :
  find_friend fuel self w = (Ok im, w') ->
  im = ""
  \/ exists fid,
       im = friend_image fid
       /\ (fid < friend_count self)%nat
       /\ friend_shown self (screen w') fid = true
       /\ forall j, (j < fid)%nat -> friend_shown self (screen w') j = false.
Proof.
  unfold find_friend. intros H.
  apply bind_inv_ok in H as ([] & w1 & _ & H).
  by apply poll_friends_result in H.
Qed.

Lemma find_friend_returns_first_match_witness :
  (find_friend 5 (Stub.bot 3 None) (Stub.world ["refresh_friends"; "f_0"])).1
  = Ok "f_0"
  /\ ("f_0" = ""
      \/ exists fid,
           "f_0" = friend_image fid
           /\ (fid < friend_count (Stub.bot 3 None))%nat
           /\ friend_shown (Stub.bot 3 None)
                (screen (find_friend 5 (Stub.bot 3 None)
                           (Stub.world ["refresh_friends"; "f_0"])).2) fid = true
           /\ forall j, (j < fid)%nat ->
                friend_shown (Stub.bot 3 None)
                  (screen (find_friend 5 (Stub.bot 3 None)
                             (Stub.world ["refresh_friends"; "f_0"])).2) j = false).
Proof.
  split; [reflexivity|].
  apply (find_friend_returns_first_match 5 (Stub.bot 3 None)
           (Stub.world ["refresh_friends"; "f_0"])).
  vm_compute. reflexivity.
Defined.

Section FriendPolls.

Variable self : BattleBot.
Variable t : gmap string (Z * Z * Z * Z).
Variables (x1 y1 x2 y2 : Z).
Hypothesis Hswipe : buttons self !! "swipe" = Some (Tracks t).
Hypothesis Htrack : t !! "friend" = Some (x1, y1, x2, y2).

(** A poll on which no roster entry is matched costs one wait and one
    swipe, and hands over to the next poll. *)
Lemma poll_friends_miss polls w :
  (forall fid, (fid < friend_count self)%nat ->
               friend_shown self (feed w (captured w)) fid = false) ->
  exists w1,
    poll_friends self (S polls) w = poll_friends self polls w1
    /\ feed w1 = feed w
    /\ captured w1 = S (captured w)
    /\ now w1 = now w + 1
    /\ swipes (trace w1) = S (swipes (trace w)).
Proof using Hswipe Htrack.
  intros Hnone. simpl.
  rewrite (bind_ok _ _ _ _ _ (wait_run _ _)).
  match goal with
  | |- context [bind (scan_friends _ _) _ ?w0] =>
      destruct (scan_friends_spec self w0 (friend_count self) 0) as (r & Hrun & Hr)
  end.
  rewrite (bind_ok _ _ _ _ _ Hrun). simpl in Hr.
  destruct r as [im|].
  - destruct Hr as (fid & _ & Hfid & Hshown & _).
    rewrite (Hnone fid ltac:(lia)) in Hshown. done.
  - rewrite (bind_ok _ _ _ _ _
               (swipe_run self "friend" t x1 y1 x2 y2 _ Hswipe Htrack)).
    eexists. split; [reflexivity|]. simpl.
    repeat split. by rewrite !swipes_app, Nat.add_0_r, Nat.add_1_r.
Qed.

(** A poll on which roster entry [fid] is the first one matched returns
    it after one wait, without swiping. *)
Lemma poll_friends_hit polls w fid :
  (fid < friend_count self)%nat ->
  friend_shown self (feed w (captured w)) fid = true ->
  (forall j, (j < fid)%nat -> friend_shown self (feed w (captured w)) j = false) ->
  exists w',
    poll_friends self (S polls) w = (Ok (friend_image fid), w')
    /\ feed w' = feed w
    /\ captured w' = S (captured w)
    /\ screen w' = feed w (captured w)
    /\ now w' = now w + 1
    /\ swipes (trace w') = swipes (trace w).
Proof.
  intros Hfid Hshown Hfirst. simpl.
  rewrite (bind_ok _ _ _ _ _ (wait_run _ _)).
  match goal with
  | |- context [bind (scan_friends _ _) _ ?w0] =>
      destruct (scan_friends_spec self w0 (friend_count self) 0) as (r & Hrun & Hr)
  end.
  rewrite (bind_ok _ _ _ _ _ Hrun). simpl in Hr.
  destruct r as [im|].
  - destruct Hr as (fid' & -> & Hfid' & Hshown' & Hfirst').
    assert (fid' = fid) as ->.
    { destruct (Nat.lt_trichotomy fid' fid) as [Hlt | [-> | Hlt]]; [|done|].
      - rewrite (Hfirst fid' Hlt) in Hshown'. done.
      - rewrite (Hfirst' fid ltac:(lia)) in Hshown. done. }
    eexists. split; [reflexivity|]. simpl.
    repeat split. by rewrite !swipes_app, !Nat.add_0_r.
  - rewrite (Hr fid ltac:(lia)) in Hshown. done.
Qed.

Lemma poll_friends_found (k : nat) :
  forall polls w fid,
    (k < polls)%nat ->
    (forall j fid', (j < k)%nat -> (fid' < friend_count self)%nat ->
                    friend_shown self (feed w (captured w + j)%nat) fid' = false) ->
    (fid < friend_count self)%nat ->
    friend_shown self (feed w (captured w + k)%nat) fid = true ->
    (forall j, (j < fid)%nat ->
               friend_shown self (feed w (captured w + k)%nat) j = false) ->
    exists w',
      poll_friends self polls w = (Ok (friend_image fid), w')
      /\ screen w' = feed w (captured w + k)%nat
      /\ now w' = now w + Z.of_nat k + 1
      /\ swipes (trace w') = (swipes (trace w) + k)%nat.
Proof using Hswipe Htrack.
  induction k as [|k IH]; intros polls w fid Hk Hmiss Hfid Hshown Hfirst;
    destruct polls as [|polls]; try lia.
  - rewrite Nat.add_0_r in Hshown, Hfirst.
    destruct (poll_friends_hit polls w fid Hfid Hshown Hfirst)
      as (w' & Hrun & _ & _ & Hscr & Hnow & Hsw).
    exists w'. rewrite Nat.add_0_r, Hscr, Hnow, Hsw. repeat split; [done|lia|lia].
  - destruct (poll_friends_miss polls w) as (w1 & Hrun & Hfeed & Hcap & Hnow & Hsw).
    { intros fid' Hfid'. specialize (Hmiss 0%nat fid' ltac:(lia) Hfid').
      by rewrite Nat.add_0_r in Hmiss. }
    rewrite Hrun.
    destruct (IH polls w1 fid) as (w' & Hrun' & Hscr' & Hnow' & Hsw').
    + lia.
    + intros j fid' Hj Hfid'. rewrite Hfeed, Hcap.
      replace (S (captured w) + j)%nat with (captured w + S j)%nat by lia.
      apply Hmiss; [lia|done].
    + done.
    + rewrite Hfeed, Hcap.
      by replace (S (captured w) + k)%nat with (captured w + S k)%nat by lia.
    + intros j Hj. rewrite Hfeed, Hcap.
      replace (S (captured w) + k)%nat with (captured w + S k)%nat by lia.
      by apply Hfirst.
    + exists w'. rewrite Hscr', Hnow', Hsw', Hfeed, Hcap, Hnow, Hsw.
      replace (S (captured w) + k)%nat with (captured w + S k)%nat by lia.
      repeat split; [done|lia|lia].
Qed.

Lemma poll_friends_exhausted (polls : nat) :
  forall w,
    (forall j fid, (j < polls)%nat -> (fid < friend_count self)%nat ->
                   friend_shown self (feed w (captured w + j)%nat) fid = false) ->
    exists w',
      poll_friends self polls w = (Ok "", w')
      /\ now w' = now w + Z.of_nat polls
      /\ captured w' = (captured w + polls)%nat
      /\ swipes (trace w') = (swipes (trace w) + polls)%nat.
Proof using Hswipe Htrack.
  induction polls as [|polls IH]; intros w Hmiss.
  - exists w. simpl. repeat split; lia.
  - destruct (poll_friends_miss polls w) as (w1 & Hrun & Hfeed & Hcap & Hnow & Hsw).
    { intros fid' Hfid'. specialize (Hmiss 0%nat fid' ltac:(lia) Hfid').
      by rewrite Nat.add_0_r in Hmiss. }
    rewrite Hrun.
    destruct (IH w1) as (w' & Hrun' & Hnow' & Hcap' & Hsw').
    { intros j fid' Hj Hfid'. rewrite Hfeed, Hcap.
      replace (S (captured w) + j)%nat with (captured w + S j)%nat by lia.
      apply Hmiss; [lia|done]. }
    exists w'. rewrite Hnow', Hcap', Hsw', Hcap, Hnow, Hsw.
    repeat split; [done|lia|lia|lia].
Qed.

End FriendPolls.

(** X7. After the refresh control has appeared, if roster entry [fid] is
    the first entry matched on the (k+1)-th frame polled, k < 6, and no
    entry is matched on the k frames before, [__find_friend] returns that
    entry's image name after exactly k swipes of the friend track and k + 1
    one-second waits, with the matching frame cached. *)
Theorem find_friend_succeeds_after_k_swipes
    fuel self t x1 y1 x2 y2 (k fid : nat) w w1 :
  buttons self !! "swipe" = Some (Tracks t) ->
  t !! "friend" = Some (x1, y1, x2, y2) ->
  wait_until fuel "refresh_friends" w = (Ok tt, w1) ->
  (k < 6)%nat ->
  (forall j fid', (j < k)%nat -> (fid' < friend_count self)%nat ->
                  friend_shown self (feed w1 (captured w1 + j)%nat) fid' = false) ->
  (fid < friend_count self)%nat ->
  friend_shown self (feed w1 (captured w1 + k)%nat) fid = true ->
  (forall j, (j < fid)%nat ->
             friend_shown self (feed w1 (captured w1 + k)%nat) j = false) ->
  exists w',
    find_friend fuel self w = (Ok (friend_image fid), w')
    /\ screen w' = feed w1 (captured w1 + k)%nat
    /\ now w' = now w1 + Z.of_nat k + 1
    /\ swipes (trace w') = (swipes (trace w1) + k)%nat.
Proof.
  intros Hswipe Htrack Hwait Hk Hmiss Hfid Hshown Hfirst. unfold find_friend.
  rewrite (bind_ok _ _ _ _ _ Hwait).
  by apply (poll_friends_found self t x1 y1 x2 y2 Hswipe Htrack k).
Qed.

(** X8. After the refresh control has appeared, if no roster entry is
    matched on any of the next six frames, [__find_friend] gives up: it
    returns the empty string after exactly six swipes of the friend track
    and six one-second waits. *)
Theorem find_friend_gives_up_after_six_polls
    fuel self t x1 y1 x2 y2 w w1 :
  buttons self !! "swipe" = Some (Tracks t) ->
  t !! "friend" = Some (x1, y1, x2, y2) ->
  wait_until fuel "refresh_friends" w = (Ok tt, w1) ->
  (forall j fid, (j < 6)%nat -> (fid < friend_count self)%nat ->
                 friend_shown self (feed w1 (captured w1 + j)%nat) fid = false) ->
  exists w',
    find_friend fuel self w = (Ok "", w')
    /\ now w' = now w1 + 6
    /\ captured w' = (captured w1 + 6)%nat
    /\ swipes (trace w') = (swipes (trace w1) + 6)%nat.
Proof.
  intros Hswipe Htrack Hwait Hmiss. unfold find_friend.
  rewrite (bind_ok _ _ _ _ _ Hwait).
  by apply (poll_friends_exhausted self t x1 y1 x2 y2 Hswipe Htrack 6).
Qed.

Lemma find_friend_succeeds_after_k_swipes_witness :
  exists w',
    find_friend 5 (Stub.bot 3 None) roster_world = (Ok (friend_image 0), w')
    /\ screen w'
       = feed (wait_until 5 "refresh_friends" roster_world).2
              (captured (wait_until 5 "refresh_friends" roster_world).2 + 2)%nat
    /\ now w' = now (wait_until 5 "refresh_friends" roster_world).2 + Z.of_nat 2 + 1
    /\ swipes (trace w')
       = (swipes (trace (wait_until 5 "refresh_friends" roster_world).2) + 2)%nat.
Proof.
  apply (find_friend_succeeds_after_k_swipes 5 (Stub.bot 3 None)
           (list_to_map [("friend", (640, 600, 640, 300));
                         ("quest", (900, 500, 900, 300))])
           640 600 640 300 2 0 roster_world).
  - reflexivity.
  - reflexivity.
  - reflexivity.
  - lia.
  - intros [|[|j]] fid' Hj Hfid; [reflexivity | reflexivity | lia].
  - simpl. lia.
  - reflexivity.
  - intros j Hj. lia.
Defined.

Lemma find_friend_gives_up_after_six_polls_witness :
  exists w',
    find_friend 5 (Stub.bot 3 None) (Stub.world ["refresh_friends"]) = (Ok "", w')
    /\ now w'
       = now (wait_until 5 "refresh_friends" (Stub.world ["refresh_friends"])).2 + 6
    /\ captured w'
       = (captured (wait_until 5 "refresh_friends"
                      (Stub.world ["refresh_friends"])).2 + 6)%nat
    /\ swipes (trace w')
       = (swipes (trace (wait_until 5 "refresh_friends"
                           (Stub.world ["refresh_friends"])).2) + 6)%nat.
Proof.
  apply (find_friend_gives_up_after_six_polls 5 (Stub.bot 3 None)
           (list_to_map [("friend", (640, 600, 640, 300));
                         ("quest", (900, 500, 900, 300))])
           640 600 640 300 (Stub.world ["refresh_friends"])).
  - reflexivity.
  - reflexivity.
  - reflexivity.
  - intros j fid Hj Hfid. reflexivity.
Defined.

(** ** The registry, continued *)

(** X9. Registering handlers at two different free stage indices
    succeeds in either order and leaves the same bot: both handlers are
    stored under their indices and every other index keeps what it had. *)
Theorem at_stage_order_is_irrelevant self (s1 s2 : Z) f1 f2 w :
  s1 <> s2 ->
  stage_handlers self !! s1 = None ->
  stage_handlers self !! s2 = None ->
  exists b1 b12 b2 b21 w1 w12 w2 w21,
    at_stage self s1 f1 w = (Ok (b1, f1), w1)
    /\ at_stage b1 s2 f2 w1 = (Ok (b12, f2), w12)
    /\ at_stage self s2 f2 w = (Ok (b2, f2), w2)
    /\ at_stage b2 s1 f1 w2 = (Ok (b21, f1), w21)
    /\ b12 = b21
    /\ stage_handlers b12 !! s1 = Some f1
    /\ stage_handlers b12 !! s2 = Some f2
    /\ forall k, k <> s1 -> k <> s2 ->
                 stage_handlers b12 !! k = stage_handlers self !! k.
Proof.
  intros Hne H1 H2.
  set (b1 := set_stage_handlers (<[s1 := f1]> (stage_handlers self)) self).
  set (b2 := set_stage_handlers (<[s2 := f2]> (stage_handlers self)) self).
  assert (stage_handlers b1 !! s2 = None) as H12
    by (simpl; by rewrite lookup_insert_ne).
  assert (stage_handlers b2 !! s1 = None) as H21
    by (simpl; by rewrite lookup_insert_ne).
  exists b1, (set_stage_handlers (<[s2 := f2]> (stage_handlers b1)) b1),
         b2, (set_stage_handlers (<[s1 := f1]> (stage_handlers b2)) b2).
  do 4 eexists. unfold at_stage.
  rewrite (bind_ok _ _ _ _ _ (add_stage_handler_free self s1 f1 w H1)).
  rewrite (bind_ok _ _ _ _ _ (add_stage_handler_free b1 s2 f2 _ H12)).
  rewrite (bind_ok _ _ _ _ _ (add_stage_handler_free self s2 f2 w H2)).
  rewrite (bind_ok _ _ _ _ _ (add_stage_handler_free b2 s1 f1 _ H21)).
  do 4 (split; [reflexivity|]).
  split; [|simpl; split; [|split]].
  - unfold set_stage_handlers. simpl. f_equal. by apply insert_insert_ne.
  - rewrite lookup_insert_ne by done. apply lookup_insert_eq.
  - apply lookup_insert_eq.
  - intros k Hk1 Hk2. by rewrite !lookup_insert_ne.
Qed.

Lemma at_stage_order_is_irrelevant_witness :
  exists b1 b12 b2 b21 w1 w12 w2 w21,
    at_stage (Stub.bot 3 None) 1 (probe 1) (Stub.world []) = (Ok (b1, probe 1), w1)
    /\ at_stage b1 2 (probe 2) w1 = (Ok (b12, probe 2), w12)
    /\ at_stage (Stub.bot 3 None) 2 (probe 2) (Stub.world []) = (Ok (b2, probe 2), w2)
    /\ at_stage b2 1 (probe 1) w2 = (Ok (b21, probe 1), w21)
    /\ b12 = b21
    /\ stage_handlers b12 !! 1 = Some (probe 1)
    /\ stage_handlers b12 !! 2 = Some (probe 2)
    /\ forall k, k <> 1 -> k <> 2 ->
                 stage_handlers b12 !! k = stage_handlers (Stub.bot 3 None) !! k.
Proof.
  apply (at_stage_order_is_irrelevant (Stub.bot 3 None) 1 2 (probe 1) (probe 2)
           (Stub.world []));
    [lia | reflexivity | reflexivity].
Defined.

(** ** [play_battle], continued *)

Lemma handler_at_missing self s w :
  stage_handlers self !! s = None ->
  handler_at self s w = (Raise (KeyErrorInt s), w).
Proof. intros H. unfold handler_at. by rewrite H. Qed.

Lemma play_loop_missing fuel self (h : Z -> Handler) (s : Z) :
  1 <= s <= stage_count self ->
  (forall k, 1 <= k < s -> stage_handlers self !! k = Some (h k)) ->
  stage_handlers self !! s = None ->
  forall (d : nat) budget stage w,
    Z.of_nat d = s - 1 - stage ->
    0 <= stage ->
    budget = Z.to_nat (stage_count self - stage) ->
    play_loop budget fuel self stage w
    = (for_each (seqZ (stage + 1) (s - 1 - stage)) (stage_step fuel h) ;;
       wait_until fuel "attack" ;;
       raise (KeyErrorInt s)) w.
Proof.
  intros Hs Hreg Hmiss.
  induction d as [|d IH]; intros budget stage w Hd Hst Hb;
    (destruct budget as [|budget]; [lia|]);
    simpl; rewrite (proj2 (Z.ltb_lt _ _)) by lia.
  - rewrite seqZ_nil by lia. simpl.
    rewrite (bind_ok (ret tt) _ w tt w eq_refl).
    apply bind_ext; intros [] w1 _.
    replace (stage + 1) with s by lia.
    by rewrite (bind_raise _ _ _ _ _ (handler_at_missing self s w1 Hmiss)).
  - rewrite (seqZ_cons (stage + 1)) by lia. simpl.
    replace (Z.succ (stage + 1)) with (stage + 1 + 1) by lia.
    replace (Z.pred (s - 1 - stage)) with (s - 1 - (stage + 1)) by lia.
    unfold stage_step at 1. rewrite !bind_assoc.
    apply bind_ext; intros [] w1 _. cbv beta.
    rewrite (bind_ok _ _ _ _ _
               (handler_at_registered self (stage + 1) (h (stage + 1)) w1
                  (Hreg (stage + 1) ltac:(lia)))).
    rewrite !bind_assoc. apply bind_ext; intros [] w2 _. cbv beta.
    apply bind_ext; intros [] w3 _.
    apply IH; lia.
Qed.

(** X10. If the stages before [s] have handlers and stage [s], within
    [1, stage_count], has none, [play_battle] runs the handlers of stages
    1 to s - 1 in order, waits for the attack control of stage [s], and
    only then fails with a KeyError on [s]: the missing handler surfaces in
    the middle of the battle, and no later handler runs. *)
Theorem play_battle_fails_at_first_missing_handler
    fuel self (h : Z -> Handler) (s : Z) w :
  1 <= s <= stage_count self ->
  (forall k, 1 <= k < s -> stage_handlers self !! k = Some (h k)) ->
  stage_handlers self !! s = None ->
  play_battle fuel self w = stages_until_missing fuel h s w.
Proof.
  intros Hs Hreg Hmiss. unfold play_battle, stages_until_missing.
  apply bind_ext; intros [] w1 _. cbv beta.
  rewrite (play_loop_missing fuel self h s Hs Hreg Hmiss (Z.to_nat (s - 1))
             (Z.to_nat (stage_count self)) 0 w1)
    by (try f_equal; lia).
  by rewrite Z.sub_0_r.
Qed.

Lemma play_battle_fails_at_first_missing_handler_witness :
  play_battle 5 (set_stage_handlers {[1 := probe 1]} (Stub.bot 3 None))
              (Stub.world ["attack"])
  = stages_until_missing 5 probe 2 (Stub.world ["attack"]).
Proof.
  apply (play_battle_fails_at_first_missing_handler 5
           (set_stage_handlers {[1 := probe 1]} (Stub.bot 3 None)) probe 2).
  - simpl. lia.
  - intros k Hk. assert (k = 1) as -> by lia. reflexivity.
  - reflexivity.
Defined.

(** With a probe at stage 1 only, the battle of three stages runs the
    probe and then raises on stage 2. *)
Example play_battle_stage_two_missing :
  (play_battle 5 (set_stage_handlers {[1 := probe 1]} (Stub.bot 3 None))
               (Stub.world ["attack"])).1
  = Raise (KeyErrorInt 2).
Proof. vm_compute. reflexivity. Qed.

(** X11. With a stage count of zero or less, [play_battle] looks up no
    handler and waits for nothing: it logs its opening record and returns
    0 (not the stage count), whatever the registry holds. *)
Theorem play_battle_without_stages fuel self w :
  stage_count self <= 0 ->
  play_battle fuel self w = (Ok 0, emit (Log INFO "Handling the battle" []) w).
Proof.
  intros Hn. unfold play_battle.
  rewrite (bind_ok _ _ _ _ _ (logger_run _ _ _ _)).
  destruct (Z.to_nat (stage_count self)); simpl;
    by rewrite (proj2 (Z.ltb_ge _ _)) by lia.
Qed.

Lemma play_battle_without_stages_witness :
  play_battle 5 (Stub.bot (-2) None) (Stub.world [])
  = (Ok 0, emit (Log INFO "Handling the battle" []) (Stub.world [])).
Proof.
  apply (play_battle_without_stages 5 (Stub.bot (-2) None)). simpl. lia.
Defined.

(** ** [use_skill], continued *)

Section SkillButton.

Variable self : BattleBot.
Variables (x y wd h sd kd : Z).
Hypothesis Hskill : buttons self !! "skill" = Some (Rect x y wd h).
Hypothesis Hsd : buttons self !! "servant_distance" = Some (Num sd).
Hypothesis Hkd : buttons self !! "skill_distance" = Some (Num kd).

(** [use_skill] up to the point where it looks for the object prompt. *)
Lemma use_skill_until_prompt fuel servant skill obj w w1 :
  wait_until fuel "attack" w = (Ok tt, w1) ->
  use_skill fuel self servant skill obj w
  = (c <- exists_ "choose_object" None ;;
     when_ c
       match obj with
       | None => logger ERROR "Must choose a skill object." []
       | Some obj =>
           r <- button self "choose_object" ;;
           let '(x, y, w, h) := r in
           d <- distance self "choose_object_distance" ;;
           let x := x + d * (obj - 1) in
           void (device_tap_rand x y w h) ;;
           logger DEBUG "Chose skill object {}." [AInt obj]
       end ;;
     wait INTERVAL_SHORT)
      (after_skill_tap w1 (x + sd * (servant - 1) + kd * (skill - 1)) y wd h
         servant skill).
Proof using Hskill Hsd Hkd.
  intros Hwait. unfold use_skill.
  rewrite (bind_ok _ _ _ _ _ Hwait).
  rewrite (bind_ok _ _ _ _ _ (button_rect _ _ _ _ _ _ _ Hskill)).
  rewrite (bind_ok _ _ _ _ _ (distance_num _ _ _ _ Hsd)).
  rewrite (bind_ok _ _ _ _ _ (distance_num _ _ _ _ Hkd)).
  rewrite (bind_ok _ _ _ _ _ (void_tap _ _ _ _ _)).
  rewrite (bind_ok _ _ _ _ _ (logger_run _ _ _ _)).
  by rewrite (bind_ok _ _ _ _ _ (wait_run _ _)).
Qed.

End SkillButton.

(** X12. When no object prompt follows the skill tap, [use_skill] ignores
    its [obj] argument: for every [obj] it returns normally in the same
    world, having tapped the skill button once and waited twice. *)
Theorem use_skill_without_prompt_ignores_object
    fuel self (servant skill : Z) w w1 x y wd h sd kd :
  buttons self !! "skill" = Some (Rect x y wd h) ->
  buttons self !! "servant_distance" = Some (Num sd) ->
  buttons self !! "skill_distance" = Some (Num kd) ->
  wait_until fuel "attack" w = (Ok tt, w1) ->
  f_exists (feed w1 (captured w1)) "choose_object" None = false ->
  exists w',
    (forall obj, use_skill fuel self servant skill obj w = (Ok tt, w'))
    /\ trace w' =
       trace w1
       ++ [Tap (x + sd * (servant - 1) + kd * (skill - 1)) y wd h;
           Log DEBUG "Used skill ({}, {})" [AInt servant; AInt skill];
           Log DEBUG "Sleep {} seconds." [AInt 1]; Sleep 1;
           Log DEBUG "Sleep {} seconds." [AInt 1]; Sleep 1].
Proof.
  intros Hskill Hsd Hkd Hwait Hno.
  eexists. split.
  - intros obj.
    rewrite (use_skill_until_prompt self x y wd h sd kd Hskill Hsd Hkd
               fuel servant skill obj w w1 Hwait).
    rewrite (bind_ok _ _ _ _ _ (exists_run _ _ _)).
    unfold after_skill_tap at 1. simpl screen. rewrite Hno. simpl when_.
    rewrite (bind_ok (ret tt) _ _ tt _ eq_refl). apply wait_run.
  - simpl. by rewrite <- !app_assoc.
Qed.

(** X13. When the object prompt follows the skill tap and no [obj] was
    given, [use_skill] logs an error and returns normally: the skill button
    is the only thing it taps, and the prompt is left unanswered. *)
Theorem use_skill_skips_missing_object
    fuel self (servant skill : Z) w w1 x y wd h sd kd :
  buttons self !! "skill" = Some (Rect x y wd h) ->
  buttons self !! "servant_distance" = Some (Num sd) ->
  buttons self !! "skill_distance" = Some (Num kd) ->
  wait_until fuel "attack" w = (Ok tt, w1) ->
  f_exists (feed w1 (captured w1)) "choose_object" None = true ->
  exists w',
    use_skill fuel self servant skill None w = (Ok tt, w')
    /\ trace w' =
       trace w1
       ++ [Tap (x + sd * (servant - 1) + kd * (skill - 1)) y wd h;
           Log DEBUG "Used skill ({}, {})" [AInt servant; AInt skill];
           Log DEBUG "Sleep {} seconds." [AInt 1]; Sleep 1;
           Log ERROR "Must choose a skill object." [];
           Log DEBUG "Sleep {} seconds." [AInt 1]; Sleep 1].
Proof.
  intros Hskill Hsd Hkd Hwait Hyes.
  rewrite (use_skill_until_prompt self x y wd h sd kd Hskill Hsd Hkd
             fuel servant skill None w w1 Hwait).
  rewrite (bind_ok _ _ _ _ _ (exists_run _ _ _)).
  unfold after_skill_tap at 1. simpl screen. rewrite Hyes. simpl when_.
  rewrite (bind_ok _ _ _ _ _ (logger_run _ _ _ _)), wait_run.
  eexists. split; [reflexivity|]. simpl. by rewrite <- !app_assoc.
Qed.

(** X14. When the object prompt follows the skill tap and [obj] is given,
    [use_skill] taps the object slot at
    choose_object.x + choose_object_distance * (obj - 1) and returns
    normally, for every integer [obj]: unlike [use_master_skill] it does not
    check that [obj] is between 1 and 3. *)
Theorem use_skill_taps_object_unchecked
    fuel self (servant skill obj : Z) w w1 x y wd h sd kd ox oy ow oh od :
  buttons self !! "skill" = Some (Rect x y wd h) ->
  buttons self !! "servant_distance" = Some (Num sd) ->
  buttons self !! "skill_distance" = Some (Num kd) ->
  buttons self !! "choose_object" = Some (Rect ox oy ow oh) ->
  buttons self !! "choose_object_distance" = Some (Num od) ->
  wait_until fuel "attack" w = (Ok tt, w1) ->
  f_exists (feed w1 (captured w1)) "choose_object" None = true ->
  exists w',
    use_skill fuel self servant skill (Some obj) w = (Ok tt, w')
    /\ trace w' =
       trace w1
       ++ [Tap (x + sd * (servant - 1) + kd * (skill - 1)) y wd h;
           Log DEBUG "Used skill ({}, {})" [AInt servant; AInt skill];
           Log DEBUG "Sleep {} seconds." [AInt 1]; Sleep 1;
           Tap (ox + od * (obj - 1)) oy ow oh;
           Log DEBUG "Chose skill object {}." [AInt obj];
           Log DEBUG "Sleep {} seconds." [AInt 1]; Sleep 1].
Proof.
  intros Hskill Hsd Hkd Hobj Hod Hwait Hyes.
  rewrite (use_skill_until_prompt self x y wd h sd kd Hskill Hsd Hkd
             fuel servant skill (Some obj) w w1 Hwait).
  rewrite (bind_ok _ _ _ _ _ (exists_run _ _ _)).
  unfold after_skill_tap at 1. simpl screen. rewrite Hyes. simpl when_.
  rewrite bind_assoc.
  rewrite (bind_ok _ _ _ _ _ (button_rect _ _ _ _ _ _ _ Hobj)).
  rewrite bind_assoc.
  rewrite (bind_ok _ _ _ _ _ (distance_num _ _ _ _ Hod)).
  rewrite bind_assoc.
  rewrite (bind_ok _ _ _ _ _ (void_tap _ _ _ _ _)).
  rewrite (bind_ok _ _ _ _ _ (logger_run _ _ _ _)), wait_run.
  eexists. split; [reflexivity|]. simpl. by rewrite <- !app_assoc.
Qed.

Lemma use_skill_without_prompt_ignores_object_witness :
  exists w',
    (forall obj,
       use_skill 5 (Stub.bot 3 None) 1 3 obj (Stub.world ["attack"]) = (Ok tt, w'))
    /\ trace w' =
       trace (wait_until 5 "attack" (Stub.world ["attack"])).2
       ++ [Tap (50 + 320 * (1 - 1) + 90 * (3 - 1)) 580 60 60;
           Log DEBUG "Used skill ({}, {})" [AInt 1; AInt 3];
           Log DEBUG "Sleep {} seconds." [AInt 1]; Sleep 1;
           Log DEBUG "Sleep {} seconds." [AInt 1]; Sleep 1].
Proof.
  apply (use_skill_without_prompt_ignores_object 5 (Stub.bot 3 None) 1 3
           (Stub.world ["attack"]));
    reflexivity.
Defined.

Lemma use_skill_skips_missing_object_witness :
  exists w',
    use_skill 5 (Stub.bot 3 None) 2 1 None (Stub.world ["attack"; "choose_object"])
    = (Ok tt, w')
    /\ trace w' =
       trace (wait_until 5 "attack" (Stub.world ["attack"; "choose_object"])).2
       ++ [Tap (50 + 320 * (2 - 1) + 90 * (1 - 1)) 580 60 60;
           Log DEBUG "Used skill ({}, {})" [AInt 2; AInt 1];
           Log DEBUG "Sleep {} seconds." [AInt 1]; Sleep 1;
           Log ERROR "Must choose a skill object." [];
           Log DEBUG "Sleep {} seconds." [AInt 1]; Sleep 1].
Proof.
  apply (use_skill_skips_missing_object 5 (Stub.bot 3 None) 2 1
           (Stub.world ["attack"; "choose_object"]));
    reflexivity.
Defined.

Lemma use_skill_taps_object_unchecked_witness :
  exists w',
    use_skill 5 (Stub.bot 3 None) 2 1 (Some 7)
      (Stub.world ["attack"; "choose_object"]) = (Ok tt, w')
    /\ trace w' =
       trace (wait_until 5 "attack" (Stub.world ["attack"; "choose_object"])).2
       ++ [Tap (50 + 320 * (2 - 1) + 90 * (1 - 1)) 580 60 60;
           Log DEBUG "Used skill ({}, {})" [AInt 2; AInt 1];
           Log DEBUG "Sleep {} seconds." [AInt 1]; Sleep 1;
           Tap (250 + 330 * (7 - 1)) 400 120 120;
           Log DEBUG "Chose skill object {}." [AInt 7];
           Log DEBUG "Sleep {} seconds." [AInt 1]; Sleep 1].
Proof.
  apply (use_skill_taps_object_unchecked 5 (Stub.bot 3 None) 2 1 7
           (Stub.world ["attack"; "choose_object"]));
    reflexivity.
Defined.

(** ** [use_master_skill], continued *)

(** X15. Once the attack control is ready, the opening of
    [use_master_skill] taps the master-skill menu button, waits a second,
    taps the skill slot at
    master_skill.x + master_skill_distance * (skill - 1) with the y, w and h
    of the base slot, and waits another second; the frame it then examines
    for a prompt is the second one captured after the attack control was
    found. *)
Theorem master_skill_select_taps_menu_then_slot
    fuel self (skill : Z) w w1 ux uy uw uh mx my mw mh md :
  buttons self !! "master_skill_menu" = Some (Rect ux uy uw uh) ->
  buttons self !! "master_skill" = Some (Rect mx my mw mh) ->
  buttons self !! "master_skill_distance" = Some (Num md) ->
  wait_until fuel "attack" w = (Ok tt, w1) ->
  exists w2,
    master_skill_select fuel self skill w = (Ok tt, w2)
    /\ trace w2 =
       trace w1
       ++ [Tap ux uy uw uh;
           Log DEBUG "Sleep {} seconds." [AInt 1]; Sleep 1;
           Tap (mx + md * (skill - 1)) my mw mh;
           Log DEBUG "Used master skill {}" [AInt skill];
           Log DEBUG "Sleep {} seconds." [AInt 1]; Sleep 1]
    /\ screen w2 = feed w1 (S (captured w1))
    /\ now w2 = now w1 + 2.
Proof.
  intros Hmenu Hslot Hmd Hwait. unfold master_skill_select.
  rewrite (bind_ok _ _ _ _ _ Hwait).
  rewrite (bind_ok _ _ _ _ _ (button_rect _ _ _ _ _ _ _ Hmenu)).
  rewrite (bind_ok _ _ _ _ _ (void_tap _ _ _ _ _)).
  rewrite (bind_ok _ _ _ _ _ (wait_run _ _)).
  rewrite (bind_ok _ _ _ _ _ (button_rect _ _ _ _ _ _ _ Hslot)).
  rewrite (bind_ok _ _ _ _ _ (distance_num _ _ _ _ Hmd)).
  rewrite (bind_ok _ _ _ _ _ (void_tap _ _ _ _ _)).
  rewrite (bind_ok _ _ _ _ _ (logger_run _ _ _ _)), wait_run.
  eexists. split; [reflexivity|]. simpl.
  split; [by rewrite <- !app_assoc|]. split; [done|].
  unfold INTERVAL_SHORT. lia.
Qed.

Lemma master_skill_select_taps_menu_then_slot_witness :
  exists w2,
    master_skill_select 5 (Stub.bot 3 None) 3 (Stub.world ["attack"]) = (Ok tt, w2)
    /\ trace w2 =
       trace (wait_until 5 "attack" (Stub.world ["attack"])).2
       ++ [Tap 1180 300 50 50;
           Log DEBUG "Sleep {} seconds." [AInt 1]; Sleep 1;
           Tap (890 + 90 * (3 - 1)) 300 50 50;
           Log DEBUG "Used master skill {}" [AInt 3];
           Log DEBUG "Sleep {} seconds." [AInt 1]; Sleep 1]
    /\ screen w2
       = feed (wait_until 5 "attack" (Stub.world ["attack"])).2
              (S (captured (wait_until 5 "attack" (Stub.world ["attack"])).2))
    /\ now w2 = now (wait_until 5 "attack" (Stub.world ["attack"])).2 + 2.
Proof.
  apply (master_skill_select_taps_menu_then_slot 5 (Stub.bot 3 None) 3
           (Stub.world ["attack"]));
    reflexivity.
Defined.

(** X16. When the opening of [use_master_skill] ends on the single-object
    prompt and 1 <= obj <= 3, the object slot is tapped at
    choose_object.x + choose_object_distance * (obj - 1) and the call
    returns normally; the second object argument plays no part. *)
Theorem use_master_skill_taps_single_object
    fuel self (skill obj : Z) (obj2 : option Z) w w2 ox oy ow oh od :
  buttons self !! "choose_object" = Some (Rect ox oy ow oh) ->
  buttons self !! "choose_object_distance" = Some (Num od) ->
  master_skill_select fuel self skill w = (Ok tt, w2) ->
  f_exists (screen w2) "choose_object" None = true ->
  1 <= obj <= 3 ->
  exists w',
    use_master_skill fuel self skill (Some obj) obj2 w = (Ok tt, w')
    /\ trace w' =
       trace w2
       ++ [Tap (ox + od * (obj - 1)) oy ow oh;
           Log DEBUG "Chose master skill object {}." [AInt obj];
           Log DEBUG "Sleep {} seconds." [AInt 1]; Sleep 1].
Proof.
  intros Hobj Hod Hsel Hyes Ho. unfold use_master_skill.
  rewrite (bind_ok _ _ _ _ _ Hsel).
  rewrite (bind_ok _ _ _ _ _ (exists_run _ _ _)), Hyes.
  unfold choose_object_branch.
  replace ((1 <=? obj) && (obj <=? 3)) with true
    by (symmetry; rewrite andb_true_iff, !Z.leb_le; lia).
  rewrite bind_assoc.
  rewrite (bind_ok _ _ _ _ _ (button_rect _ _ _ _ _ _ _ Hobj)).
  rewrite bind_assoc.
  rewrite (bind_ok _ _ _ _ _ (distance_num _ _ _ _ Hod)).
  rewrite bind_assoc.
  rewrite (bind_ok _ _ _ _ _ (void_tap _ _ _ _ _)).
  rewrite (bind_ok _ _ _ _ _ (logger_run _ _ _ _)), wait_run.
  eexists. split; [reflexivity|]. simpl. by rewrite <- !app_assoc.
Qed.

Lemma use_master_skill_taps_single_object_witness :
  exists w',
    use_master_skill 5 (Stub.bot 3 None) 2 (Some 3) None
      (Stub.world ["attack"; "choose_object"]) = (Ok tt, w')
    /\ trace w' =
       trace choose_object_world
       ++ [Tap (250 + 330 * (3 - 1)) 400 120 120;
           Log DEBUG "Chose master skill object {}." [AInt 3];
           Log DEBUG "Sleep {} seconds." [AInt 1]; Sleep 1].
Proof.
  apply (use_master_skill_taps_single_object 5 (Stub.bot 3 None) 2 3 None
           (Stub.world ["attack"; "choose_object"]) choose_object_world);
    first [reflexivity | lia].
Defined.

(** X17. When the opening of [use_master_skill] ends on a screen with
    neither the single-object prompt nor the Order Change prompt, both
    object arguments are ignored: for every [obj] and [obj2] the call only
    waits once more and returns normally, with no further tap and no error
    record. *)
Theorem use_master_skill_without_prompt_ignores_objects
    fuel self (skill : Z) w w2 :
  master_skill_select fuel self skill w = (Ok tt, w2) ->
  f_exists (screen w2) "choose_object" None = false ->
  f_exists (screen w2) "order_change" None = false ->
  exists w',
    (forall obj obj2, use_master_skill fuel self skill obj obj2 w = (Ok tt, w'))
    /\ trace w' =
       trace w2 ++ [Log DEBUG "Sleep {} seconds." [AInt 1]; Sleep 1].
Proof.
  intros Hsel Hco Hoc. eexists. split.
  - intros obj obj2. unfold use_master_skill.
    rewrite (bind_ok _ _ _ _ _ Hsel).
    rewrite (bind_ok _ _ _ _ _ (exists_run _ _ _)), Hco.
    rewrite bind_assoc.
    rewrite (bind_ok _ _ _ _ _ (exists_run _ _ _)), Hoc. simpl when_.
    rewrite (bind_ok (ret tt) _ _ tt _ eq_refl). apply wait_run.
  - simpl. by rewrite <- !app_assoc.
Qed.

Lemma use_master_skill_without_prompt_ignores_objects_witness :
  exists w',
    (forall obj obj2,
       use_master_skill 5 (Stub.bot 3 None) 1 obj obj2 (Stub.world ["attack"])
       = (Ok tt, w'))
    /\ trace w' =
       trace (master_skill_select 5 (Stub.bot 3 None) 1 (Stub.world ["attack"])).2
       ++ [Log DEBUG "Sleep {} seconds." [AInt 1]; Sleep 1].
Proof.
  apply (use_master_skill_without_prompt_ignores_objects 5 (Stub.bot 3 None) 1
           (Stub.world ["attack"]));
    reflexivity.
Defined.

(** ** Entering a battle without action points *)

(** X18. If the insufficient-AP prompt is on the screen after the quest
    was tapped and the AP strategy is [None] or empty, [__enter_battle]
    returns False at once: nothing is tapped, swiped or logged after the
    opening, and no friend search starts. *)
Theorem enter_battle_fails_without_ap_strategy fuel self w w1 :
  enter_opening fuel self w = (Ok tt, w1) ->
  f_exists (screen w1) "ap_regen" None = true ->
  ap self = None \/ ap self = Some [] ->
  enter_battle fuel self w = (Ok false, w1).
Proof.
  intros Hopen Hregen Hap. unfold enter_opening in Hopen.
  apply bind_inv_ok in Hopen as ([] & wa & Ha & Hopen).
  apply bind_inv_ok in Hopen as ([] & wb & Hb & Hopen).
  apply bind_inv_ok in Hopen as ([] & wc & Hc & Hopen).
  unfold enter_battle. cbv zeta.
  rewrite (bind_ok _ _ _ _ _ Ha), (bind_ok _ _ _ _ _ Hb),
    (bind_ok _ _ _ _ _ Hc), (bind_ok _ _ _ _ _ Hopen).
  rewrite (bind_ok _ _ _ _ _ (exists_run _ _ _)), Hregen.
  unfold ap_truthy. by destruct Hap as [-> | ->].
Qed.

Lemma enter_battle_fails_without_ap_strategy_witness :
  enter_battle 5 (Stub.bot 3 None) (Stub.world ["menu"; "quest"; "ap_regen"])
  = (Ok false,
     (enter_opening 5 (Stub.bot 3 None)
        (Stub.world ["menu"; "quest"; "ap_regen"])).2).
Proof.
  apply (enter_battle_fails_without_ap_strategy 5 (Stub.bot 3 None)
           (Stub.world ["menu"; "quest"; "ap_regen"])).
  - reflexivity.
  - reflexivity.
  - left. reflexivity.
Defined.

(** X19. If the insufficient-AP prompt is on the screen after the
    continue control was tapped and the AP strategy is [None] or empty,
    [__reenter_battle] logs 'Insufficient AP' and returns False; nothing
    else happens after the opening. *)
Theorem reenter_battle_fails_without_ap_strategy fuel self w w1 :
  reenter_opening fuel w = (Ok tt, w1) ->
  f_exists (screen w1) "ap_regen" None = true ->
  ap self = None \/ ap self = Some [] ->
  reenter_battle fuel self w
  = (Ok false, emit (Log DEBUG "Insufficient AP" []) w1).
Proof.
  intros Hopen Hregen Hap. unfold reenter_opening in Hopen.
  apply bind_inv_ok in Hopen as ([] & wa & Ha & Hopen).
  apply bind_inv_ok in Hopen as ([] & wb & Hb & Hopen).
  unfold reenter_battle. cbv zeta.
  rewrite (bind_ok _ _ _ _ _ Ha), (bind_ok _ _ _ _ _ Hb),
    (bind_ok _ _ _ _ _ Hopen).
  rewrite (bind_ok _ _ _ _ _ (exists_run _ _ _)), Hregen.
  rewrite (bind_ok _ _ _ _ _ (logger_run _ _ _ _)).
  unfold ap_truthy. by destruct Hap as [-> | ->].
Qed.

Lemma reenter_battle_fails_without_ap_strategy_witness :
  reenter_battle 5 (Stub.bot 3 (Some [])) (Stub.world ["cont"; "ap_regen"])
  = (Ok false,
     emit (Log DEBUG "Insufficient AP" [])
          (reenter_opening 5 (Stub.world ["cont"; "ap_regen"])).2).
Proof.
  apply (reenter_battle_fails_without_ap_strategy 5 (Stub.bot 3 (Some []))
           (Stub.world ["cont"; "ap_regen"])).
  - reflexivity.
  - reflexivity.
  - right. reflexivity.
Defined.

(** X20. If none of the recovery items is the bronze apple and the
    matcher finds none of them on the cached frame, the AP-recovery loop
    reports failure after one warning per item, in list order: it taps
    nothing, swipes nothing and does not wait. *)
Theorem use_ap_items_fails_when_nothing_found fuel (items : list string) w :
  (forall item, item ∈ items ->
                item <> "apple_bronze"
                /\ f_find (screen w) item None = (-1, -1)) ->
  exists w',
    use_ap_items fuel items w = (Ok false, w')
    /\ trace w' =
       trace w
       ++ map (fun item =>
                 Log WARNING "Failed to find image {} on screen." [AStr item])
              items
    /\ screen w' = screen w
    /\ now w' = now w.
Proof.
  revert w. induction items as [|item items IH]; intros w Hnone.
  - exists w. simpl. by rewrite app_nil_r.
  - destruct (Hnone item ltac:(left)) as [Hne Hfind]. simpl.
    rewrite (bool_decide_eq_false_2 _ Hne). simpl when_.
    rewrite (bind_ok (ret tt) _ w tt w eq_refl).
    assert (find_and_tap item None w
            = (Ok false,
               emit (Log WARNING "Failed to find image {} on screen." [AStr item])
                    w)) as Hmiss.
    { unfold find_and_tap, bind, tm_find. simpl. by rewrite Hfind. }
    rewrite (bind_ok _ _ _ _ _ Hmiss).
    destruct (IH (emit (Log WARNING "Failed to find image {} on screen."
                            [AStr item]) w))
      as (w' & Hrun & Htr & Hscr & Hnow).
    { intros item' Hin. simpl. apply Hnone. by right. }
    exists w'. split; [done|]. rewrite Htr, Hscr, Hnow. simpl.
    by rewrite <- app_assoc.
Qed.

Lemma use_ap_items_fails_when_nothing_found_witness :
  exists w',
    use_ap_items 5 ["apple_golden"; "apple_silver"] (Stub.world ["ap_regen"])
    = (Ok false, w')
    /\ trace w' =
       trace (Stub.world ["ap_regen"])
       ++ map (fun item =>
                 Log WARNING "Failed to find image {} on screen." [AStr item])
              ["apple_golden"; "apple_silver"]
    /\ screen w' = screen (Stub.world ["ap_regen"])
    /\ now w' = now (Stub.world ["ap_regen"]).
Proof.
  apply (use_ap_items_fails_when_nothing_found 5
           ["apple_golden"; "apple_silver"] (Stub.world ["ap_regen"])).
  intros item Hin.
  apply list_elem_of_In in Hin. simpl in Hin.
  destruct Hin as [<- | [<- | []]]; (split; [done | reflexivity]).
Defined.

(** ** [run], continued *)

Lemma battle_cycle_counts fuel self battlestart count w c w' :
  battle_cycle fuel self battlestart count w = (Ok c, w') -> c = count + 1.
Proof.
  unfold battle_cycle. intros H.
  apply bind_inv_ok in H as (rounds & w1 & _ & H).
  apply bind_inv_ok in H as ([] & w2 & _ & H).
  apply bind_inv_ok in H as (battleend & w3 & _ & H).
  apply bind_inv_ok in H as ([] & w4 & _ & H).
  by injection H as <- _.
Qed.

Lemma run_loop_bounds (budget : nat) :
  forall fuel self max_loops enter_flag count w c w',
    run_loop budget fuel self max_loops enter_flag count w = (Ok c, w') ->
    count <= c <= Z.max count max_loops.
Proof.
  induction budget as [|budget IH];
    intros fuel self max_loops enter_flag count w c w'; simpl;
    destruct ((count <? max_loops) && (enter_flag =? 0)) eqn:Hcond;
    try (intros [= <- _]; lia); try done.
  apply andb_true_iff in Hcond as [Hlt _]. apply Z.ltb_lt in Hlt.
  intros H.
  apply bind_inv_ok in H as (battlestart & w1 & _ & H).
  apply bind_inv_ok in H as (ok & w2 & _ & H).
  destruct ok; simpl negb in H; cbv iota in H.
  - apply bind_inv_ok in H as (count' & w3 & Hcycle & H).
    apply battle_cycle_counts in Hcycle as ->.
    apply IH in H. lia.
  - apply bind_inv_ok in H as ([] & w3 & _ & H).
    injection H as <- _. lia.
Qed.

(** X21. Whenever [run] returns normally, the last record of the trace is
    the summary, and the number of battles it reports is at least 1 and at
    most the larger of 1 and [max_loops]: the first battle is played
    whatever [max_loops] is, and the loop never exceeds the bound. *)
Theorem run_reports_between_one_and_max_loops fuel self max_loops w w' :
  run fuel self max_loops w = (Ok tt, w') ->
  exists before count total average,
    trace w' = before ++ [summary count total average]
    /\ 1 <= count <= Z.max 1 max_loops.
Proof.
  unfold run. intros H.
  apply bind_inv_ok in H as (starttime & w1 & _ & H).
  apply bind_inv_ok in H as (battlestart & w2 & _ & H).
  apply bind_inv_ok in H as (ok & w3 & _ & H).
  apply bind_inv_ok in H as (enter_flag & w4 & Hflag & H).
  apply bind_inv_ok in H as (count0 & w5 & Hfirst & H).
  apply bind_inv_ok in H as (count & w6 & Hloop & H).
  apply bind_inv_ok in H as (endtime & w7 & _ & H).
  apply bind_inv_ok in H as (average & w8 & Hdiv & H).
  injection H as <-.
  exists (trace w8), count, (endtime - starttime), average.
  split; [reflexivity|].
  assert (count <> 0) as Hnz.
  { intros ->. by rewrite truediv_zero in Hdiv. }
  pose proof (run_loop_bounds _ _ _ _ _ _ _ _ _ Hloop) as Hb.
  destruct ok; simpl negb in Hflag; cbv iota in Hflag.
  - injection Hflag as <- _. change (0 =? 0) with true in Hfirst. cbv iota in Hfirst.
    apply battle_cycle_counts in Hfirst as ->. lia.
  - apply bind_inv_ok in Hflag as ([] & wq & _ & Hflag).
    injection Hflag as <- _. change (1 =? 0) with false in Hfirst.
    cbv iota in Hfirst. injection Hfirst as <- <-.
    exfalso. apply Hnz.
    destruct (Z.to_nat max_loops); simpl in Hloop;
      change (1 =? 0) with false in Hloop; rewrite andb_false_r in Hloop;
      by injection Hloop as <- _.
Qed.

(** X22. If the first entry succeeds and the first battle completes,
    [run] with [max_loops] at most 1 (0 and negative values included) plays
    exactly that one battle: it does not try to re-enter, and it returns
    normally after logging the summary for 1 battle, whose average time is
    the total time. *)
Theorem run_plays_one_battle_when_max_loops_at_most_one
    fuel self max_loops w w1 c w2 :
  enter_battle fuel self w = (Ok true, w1) ->
  battle_cycle fuel self (now w) 0 w1 = (Ok c, w2) ->
  max_loops <= 1 ->
  run fuel self max_loops w
  = (Ok tt,
     emit (summary 1 (now w2 - now w) (Qmake (now w2 - now w) 1)) w2).
Proof.
  intros Hent Hcycle Hmax. unfold run.
  rewrite (bind_ok time _ w (now w) w eq_refl).
  rewrite (bind_ok time _ w (now w) w eq_refl).
  rewrite (bind_ok _ _ _ _ _ Hent). simpl negb. cbv iota.
  rewrite (bind_ok (ret 0) _ w1 0 w1 eq_refl).
  change (0 =? 0) with true. cbv iota.
  pose proof (battle_cycle_counts _ _ _ _ _ _ _ Hcycle) as ->.
  rewrite (bind_ok _ _ _ _ _ Hcycle).
  assert (run_loop (Z.to_nat max_loops) fuel self max_loops 0 (0 + 1) w2
          = (Ok (0 + 1), w2)) as Hloop.
  { destruct (Z.to_nat max_loops); simpl;
      by rewrite (proj2 (Z.ltb_ge _ _)) by lia. }
  rewrite (bind_ok _ _ _ _ _ Hloop).
  rewrite (bind_ok time _ w2 (now w2) w2 eq_refl).
  unfold truediv, summary. simpl.
  unfold bind, ret, logger. simpl. by rewrite Z.mul_1_r.
Qed.

Lemma run_reports_between_one_and_max_loops_witness :
  exists before count total average,
    trace (run 5 probed_bot 2 battle_world).2
    = before ++ [summary count total average]
    /\ 1 <= count <= Z.max 1 2.
Proof.
  apply (run_reports_between_one_and_max_loops 5 probed_bot 2 battle_world).
  vm_compute. reflexivity.
Defined.

Lemma run_plays_one_battle_when_max_loops_at_most_one_witness :
  run 5 probed_bot 0 battle_world
  = (Ok tt,
     emit (summary 1
             (now (battle_cycle 5 probed_bot (now battle_world) 0
                     (enter_battle 5 probed_bot battle_world).2).2
              - now battle_world)
             (Qmake
                (now (battle_cycle 5 probed_bot (now battle_world) 0
                        (enter_battle 5 probed_bot battle_world).2).2
                 - now battle_world) 1))
          (battle_cycle 5 probed_bot (now battle_world) 0
             (enter_battle 5 probed_bot battle_world).2).2).
Proof.
  apply (run_plays_one_battle_when_max_loops_at_most_one 5 probed_bot 0
           battle_world (enter_battle 5 probed_bot battle_world).2 1).
  - vm_compute. reflexivity.
  - vm_compute. reflexivity.
  - lia.
Defined.

(** On the stub screen, [run] with [max_loops = 2] reports two battles
    after 188 seconds of waiting. *)
Example run_two_battles :
  (run 5 probed_bot 2 battle_world).1 = Ok tt
  /\ last (trace (run 5 probed_bot 2 battle_world).2)
     = Some (summary 2 188 (188 # 2)).
Proof. split; vm_compute; reflexivity. Qed.

(** ** [end_battle] *)

Lemma next_step_body_run w :
  exists w',
    next_step_body w = (Ok tt, w')
    /\ feed w' = feed w
    /\ captured w' = S (captured w)
    /\ screen w' = feed w (captured w)
    /\ now w' = now w + 1.
Proof.
  unfold next_step_body.
  rewrite (bind_ok _ _ _ _ _ (void_tap _ _ _ _ _)).
  rewrite (bind_ok _ _ _ _ _ (wait_run _ _)).
  rewrite (bind_ok _ _ _ _ _ (exists_run _ _ _)).
  match goal with |- context [when_ ?c _] => destruct c end; simpl when_.
  - rewrite void_find_and_tap. eexists. split; [reflexivity|]. done.
  - eexists. split; [reflexivity|]. done.
Qed.

Lemma next_step_loop_unfold fuel w :
  next_step_loop (S fuel) w
  = if f_exists (screen w) "next_step" None then (Ok tt, w)
    else bind next_step_body (fun _ => next_step_loop fuel) w.
Proof.
  simpl. rewrite (bind_ok _ _ _ _ _ (exists_run _ _ _)).
  destruct (f_exists (screen w) "next_step" None); [done|]. simpl negb. cbv iota.
  unfold next_step_body. rewrite !bind_assoc.
  apply bind_ext; intros [] w1 _. cbv beta. rewrite !bind_assoc.
  apply bind_ext; intros [] w2 _. cbv beta. rewrite !bind_assoc.
  apply bind_ext; intros r w3 _. reflexivity.
Qed.

Lemma next_step_loop_zero w :
  next_step_loop 0 w
  = if f_exists (screen w) "next_step" None then (Ok tt, w) else (OutOfFuel, w).
Proof.
  simpl. rewrite (bind_ok _ _ _ _ _ (exists_run _ _ _)).
  by destruct (f_exists (screen w) "next_step" None).
Qed.

Lemma next_step_loop_appears (k : nat) :
  forall fuel w,
    (k <= fuel)%nat ->
    (forall j, (j < k)%nat -> f_exists (view w j) "next_step" None = false) ->
    f_exists (view w k) "next_step" None = true ->
    exists w',
      next_step_loop fuel w = (Ok tt, w')
      /\ screen w' = view w k
      /\ captured w' = (captured w + k)%nat
      /\ now w' = now w + Z.of_nat k
      /\ feed w' = feed w.
Proof.
  induction k as [|k IH]; intros fuel w Hfuel Hnot Hshown.
  - simpl in Hshown. exists w.
    split; [|by rewrite Nat.add_0_r, Z.add_0_r].
    destruct fuel; [rewrite next_step_loop_zero | rewrite next_step_loop_unfold];
      by rewrite Hshown.
  - destruct fuel as [|fuel]; [lia|].
    rewrite next_step_loop_unfold.
    rewrite (Hnot 0%nat ltac:(lia) : f_exists (screen w) "next_step" None = false).
    destruct (next_step_body_run w) as (w1 & Hbody & Hfeed & Hcap & Hscr & Hnow).
    rewrite (bind_ok _ _ _ _ _ Hbody).
    assert (forall j, view w1 j = view w (S j)) as Hview.
    { intros [|j]; simpl; rewrite ?Hfeed, ?Hcap, ?Hscr; f_equal; lia. }
    destruct (IH fuel w1) as (w' & Hrun & Hs & Hc & Hn & Hf).
    + lia.
    + intros j Hj. rewrite Hview. apply Hnot. lia.
    + by rewrite Hview.
    + exists w'. split; [done|].
      rewrite Hs, Hc, Hn, Hf, Hview, Hcap, Hnow, Hfeed.
      repeat split; lia.
Qed.

(** X23. If the result control 'next_step' is first matched on the k-th
    frame the device delivers from now on (k counted from 0) and the fuel
    covers k polls, [end_battle] returns normally.  It has then waited
    k + 6 seconds and captured k + 4 frames, or one second and one frame
    more when the result control is still matched on the frame that follows
    its first tap; it needs no button layout. *)
Theorem end_battle_returns_when_next_step_appears (k fuel : nat) w :
  (k <= fuel)%nat ->
  (forall j, (j < k)%nat ->
             f_exists (feed w (captured w + j)%nat) "next_step" None = false) ->
  f_exists (feed w (captured w + k)%nat) "next_step" None = true ->
  exists w',
    end_battle fuel w = (Ok tt, w')
    /\ feed w' = feed w
    /\ now w'
       = now w + Z.of_nat k
         + (if f_exists (feed w (captured w + k + 1)%nat) "next_step" None
            then 7 else 6)
    /\ captured w'
       = (captured w + k
          + (if f_exists (feed w (captured w + k + 1)%nat) "next_step" None
             then 5 else 4))%nat.
Proof.
  intros Hfuel Hnot Hshown. unfold end_battle.
  rewrite (bind_ok _ _ _ _ _ (wait_run _ _)).
  rewrite (bind_ok _ _ _ _ _ (logger_run _ _ _ _)).
  match goal with |- context [bind (next_step_loop _) _ ?w0] => set (w0' := w0) end.
  assert (forall j, view w0' j = feed w (captured w + j)%nat) as Hview.
  { intros [|j]; simpl; f_equal; lia. }
  destruct (next_step_loop_appears k fuel w0') as (w1 & Hrun & Hs & Hc & Hn & Hf).
  { done. }
  { intros j Hj. rewrite Hview. by apply Hnot. }
  { by rewrite Hview. }
  rewrite (bind_ok _ _ _ _ _ Hrun).
  rewrite (bind_ok _ _ _ _ _ (void_find_and_tap _ _ _)).
  rewrite (bind_ok _ _ _ _ _ (wait_run _ _)).
  rewrite (bind_ok _ _ _ _ _ (exists_run _ _ _)).
  simpl screen. rewrite Hf, Hc. simpl feed. simpl captured.
  replace (S (captured w + k))%nat with (captured w + k + 1)%nat by lia.
  destruct (f_exists (feed w (captured w + k + 1)%nat) "next_step" None);
    simpl when_.
  - rewrite bind_assoc.
    rewrite (bind_ok _ _ _ _ _ (void_find_and_tap _ _ _)).
    rewrite (bind_ok _ _ _ _ _ (wait_run _ _)).
    rewrite (bind_ok _ _ _ _ _ (wait_run _ _)).
    rewrite (bind_ok _ _ _ _ _ (exists_run _ _ _)).
    match goal with |- context [when_ ?c _] => destruct c end; simpl when_.
    + rewrite (bind_ok _ _ _ _ _ (void_find_and_tap _ _ _)), wait_run.
      eexists. split; [reflexivity|]. simpl. rewrite Hf, Hc, Hn. simpl.
      unfold INTERVAL_SHORT. repeat split; lia.
    + rewrite (bind_ok (ret tt) _ _ tt _ eq_refl), wait_run.
      eexists. split; [reflexivity|]. simpl. rewrite Hf, Hc, Hn. simpl.
      unfold INTERVAL_SHORT. repeat split; lia.
  - rewrite (bind_ok (ret tt) _ _ tt _ eq_refl).
    rewrite (bind_ok _ _ _ _ _ (wait_run _ _)).
    rewrite (bind_ok _ _ _ _ _ (exists_run _ _ _)).
    match goal with |- context [when_ ?c _] => destruct c end; simpl when_.
    + rewrite (bind_ok _ _ _ _ _ (void_find_and_tap _ _ _)), wait_run.
      eexists. split; [reflexivity|]. simpl. rewrite Hf, Hc, Hn. simpl.
      unfold INTERVAL_SHORT. repeat split; lia.
    + rewrite (bind_ok (ret tt) _ _ tt _ eq_refl), wait_run.
      eexists. split; [reflexivity|]. simpl. rewrite Hf, Hc, Hn. simpl.
      unfold INTERVAL_SHORT. repeat split; lia.
Qed.

Lemma end_battle_returns_when_next_step_appears_witness :
  exists w',
    end_battle 5 (late_world 3 ["next_step"]) = (Ok tt, w')
    /\ feed w' = feed (late_world 3 ["next_step"])
    /\ now w'
       = now (late_world 3 ["next_step"]) + Z.of_nat 3
         + (if f_exists (feed (late_world 3 ["next_step"])
                           (captured (late_world 3 ["next_step"]) + 3 + 1)%nat)
                        "next_step" None
            then 7 else 6)
    /\ captured w'
       = (captured (late_world 3 ["next_step"]) + 3
          + (if f_exists (feed (late_world 3 ["next_step"])
                            (captured (late_world 3 ["next_step"]) + 3 + 1)%nat)
                         "next_step" None
             then 5 else 4))%nat.
Proof.
  apply (end_battle_returns_when_next_step_appears 3 5 (late_world 3 ["next_step"])).
  - lia.
  - intros [|[|[|j]]] Hj; [reflexivity | reflexivity | reflexivity | lia].
  - reflexivity.
Defined.

(** ** [AssistBot.drawcard] *)

Lemma drawcard_loop_index fuel self (c : nat) :
  forall (a i : Z) w r w',
    Assist.drawcard_loop fuel self (seqZ a (Z.of_nat c)) i w = (Ok r, w') ->
    r = i \/ a <= r < a + Z.of_nat c.
Proof.
  induction c as [|c IH]; intros a i w r w'.
  - rewrite seqZ_nil by lia. simpl. intros [= <- _]. by left.
  - rewrite seqZ_cons by lia. simpl.
    replace (Z.pred (Z.of_nat (S c))) with (Z.of_nat c) by lia.
    intros H.
    apply bind_inv_ok in H as ([] & w1 & _ & H).
    apply bind_inv_ok in H as ([] & w2 & _ & H).
    apply bind_inv_ok in H as ([] & w3 & _ & H).
    apply bind_inv_ok in H as (d & w4 & _ & H).
    destruct d.
    + apply bind_inv_ok in H as ([] & w5 & _ & H).
      apply bind_inv_ok in H as ([] & w6 & _ & H).
      apply bind_inv_ok in H as ([] & w7 & _ & H).
      apply bind_inv_ok in H as ([] & w8 & _ & H).
      apply bind_inv_ok in H as ([] & w9 & _ & H).
      apply IH in H. lia.
    + injection H as <- _. lia.
Qed.

(** X24. Whenever [drawcard] returns, the last record of the trace is its
    report, and the draw number in it lies between 1 and the larger of 1 and
    [n_iter]; in particular the report never says 0, not even when nothing
    was drawn. *)
Theorem drawcard_reports_between_one_and_n_iter fuel self w w' :
  Assist.drawcard fuel self w = (Ok tt, w') ->
  exists before i total,
    trace w' = before ++ [Log INFO "{}-th draw. Time: {} sec." [AInt i; AInt total]]
    /\ 1 <= i <= Z.max 1 (n_iter self).
Proof.
  unfold Assist.drawcard. intros H.
  apply bind_inv_ok in H as (start & w1 & _ & H).
  apply bind_inv_ok in H as (i & w2 & Hloop & H).
  apply bind_inv_ok in H as (end_ & w3 & _ & H).
  injection H as <-.
  exists (trace w3), (i + 1), (end_ - start). split; [reflexivity|].
  destruct (decide (n_iter self <= 0)) as [Hn|Hn].
  - rewrite seqZ_nil in Hloop by done. simpl in Hloop.
    injection Hloop as <- _. lia.
  - rewrite <- (Z2Nat.id (n_iter self)) in Hloop by lia.
    apply drawcard_loop_index in Hloop. lia.
Qed.

Lemma drawcard_reports_between_one_and_n_iter_witness :
  exists before i total,
    trace (Assist.drawcard 5 {| n_iter := 2; assist_threshold := 98 # 100 |}
             draw_world).2
    = before ++ [Log INFO "{}-th draw. Time: {} sec." [AInt i; AInt total]]
    /\ 1 <= i <= Z.max 1 (n_iter {| n_iter := 2; assist_threshold := 98 # 100 |}).
Proof.
  apply (drawcard_reports_between_one_and_n_iter 5
           {| n_iter := 2; assist_threshold := 98 # 100 |} draw_world).
  vm_compute. reflexivity.
Defined.


(** Two draws on the stub screen: a report for draw 2 after 12 seconds. *)
Example drawcard_two_draws :
  (Assist.drawcard 5 {| n_iter := 2; assist_threshold := 98 # 100 |}
     draw_world).1 = Ok tt
  /\ last (trace (Assist.drawcard 5 {| n_iter := 2; assist_threshold := 98 # 100 |}
                    draw_world).2)
     = Some (Log INFO "{}-th draw. Time: {} sec." [AInt 2; AInt 12]).
Proof. split; vm_compute; reflexivity. Qed.

(** ** The friend-refresh loop *)

Lemma friend_image_truthy fid : str_truthy (friend_image fid) = true.
Proof. reflexivity. Qed.

(** X26. Whatever the friend-refresh loop of [__enter_battle] and
    [__reenter_battle] hands on to be tapped is never the empty string: it
    is the friend it started with, untouched, or the image name of a roster
    entry that is matched on the cached frame with no earlier entry
    matched. *)
Theorem refresh_friends_loop_returns_a_friend fuel self friend w f w' :
  refresh_friends_loop fuel self friend w = (Ok f, w') ->
  f <> ""
  /\ ((f = friend /\ w' = w)
      \/ exists fid,
           f = friend_image fid
           /\ (fid < friend_count self)%nat
           /\ friend_shown self (screen w') fid = true
           /\ forall j, (j < fid)%nat -> friend_shown self (screen w') j = false).
Proof.
  assert (forall friend0 w0,
            str_truthy friend0 = true ->
            (Ok friend0, w0) = (Ok f, w') ->
            f <> "" /\ ((f = friend0 /\ w' = w0)
                        \/ exists fid,
                             f = friend_image fid
                             /\ (fid < friend_count self)%nat
                             /\ friend_shown self (screen w') fid = true
                             /\ forall j, (j < fid)%nat ->
                                          friend_shown self (screen w') j = false))
    as Hdone.
  { intros friend0 w0 Htruthy [= <- <-]. split; [by destruct friend0 | by left]. }
  revert friend w. induction fuel as [|fuel IH]; intros friend w H;
    simpl in H; destruct (str_truthy friend) eqn:Htruthy; simpl in H;
    try done; try (by apply (Hdone friend w)).
  apply bind_inv_ok in H as ([] & w1 & _ & H).
  apply bind_inv_ok in H as ([] & w2 & _ & H).
  apply bind_inv_ok in H as ([] & w3 & _ & H).
  apply bind_inv_ok in H as ([] & w4 & _ & H).
  apply bind_inv_ok in H as (friend' & w5 & Hfind & H).
  apply IH in H as [Hne [[-> ->] | Hroster]]; (split; [done|]); [|by right].
  right.
  unfold find_friend in Hfind.
  apply bind_inv_ok in Hfind as ([] & w6 & _ & Hfind).
  apply poll_friends_result in Hfind as [-> | Hfound]; [done|].
  exact Hfound.
Qed.

Lemma refresh_friends_loop_returns_a_friend_witness :
  "f_0" <> ""
  /\ (("f_0" = "" /\
       (refresh_friends_loop 5 (Stub.bot 3 None) ""
          (Stub.world ["refresh_friends"; "f_0"])).2
       = Stub.world ["refresh_friends"; "f_0"])
      \/ exists fid,
           "f_0" = friend_image fid
           /\ (fid < friend_count (Stub.bot 3 None))%nat
           /\ friend_shown (Stub.bot 3 None)
                (screen (refresh_friends_loop 5 (Stub.bot 3 None) ""
                           (Stub.world ["refresh_friends"; "f_0"])).2) fid = true
           /\ forall j, (j < fid)%nat ->
                friend_shown (Stub.bot 3 None)
                  (screen (refresh_friends_loop 5 (Stub.bot 3 None) ""
                             (Stub.world ["refresh_friends"; "f_0"])).2) j = false).
Proof.
  apply (refresh_friends_loop_returns_a_friend 5 (Stub.bot 3 None) ""
           (Stub.world ["refresh_friends"; "f_0"])).
  vm_compute. reflexivity.
Defined.
